(** * enstaller: plans, egg names, index metadata and proxy set-up

    A shallow embedding of the parts of enstaller that turn a requirement
    into a plan of (action, egg) tuples and run it:

    - [DistNaming]  : indexed_repo/dist_naming.py (egg file names,
                      repository names, distributions);
    - [Metadata]    : indexed_repo/metadata.py ([parse_index], [parse_data],
                      [index_section], [write_index]);
    - [Enpkg]       : enpkg.py (stores, plans, the executor);
    - [Main]        : main.py ([revert], [iter_dists_excl], [remove_req]);
    - [ProxyUtil]   : proxy/util.py.

    Python values are modelled by [value]; a call that may raise returns a
    [result]; collaborators whose code lives in other modules (the resolver,
    the egg collections, the file system, urllib2) are fields of a record or
    variables of a section. *)

From Stdlib Require Import ZArith Ascii DecimalString.
From Stdlib Require String DecimalPos DecimalZ.
From stdpp Require Import gmap strings list.

(** ** Python values, exceptions and results *)

(** The literal values the index format knows, plus the int/long split of
    Python 2 that [isinstance(x, int)] observes. *)
Inductive value :=
| VNone
| VInt (z : Z)
| VLong (z : Z)
| VStr (s : string)
| VList (l : list string).

(** An installed-egg entry or a metadata record: a Python dict. *)
Abbreviation info := (gmap string value).

(** [bool(d)] for a dict, [d is None] for an optional one. *)
Definition dict_truthy (d : info) : bool := negb (bool_decide (d = ∅)).

Definition truthy (o : option info) : bool :=
  match o with
  | None => false
  | Some d => dict_truthy d
  end.

Definition is_None {A} (o : option A) : bool :=
  match o with
  | None => true
  | Some _ => false
  end.

(** Modelled from the spec: the class [Req] of resolve.py, which is not among
    these sources.  A requirement holds an optional name, version and build;
    its strictness counts how many of them are pinned. *)
Record Req := mkReq {
  req_name : option string;
  req_version : option string;
  req_build : option Z;
}.

Definition strictness (r : Req) : nat :=
  match req_name r, req_version r, req_build r with
  | None, _, _ => 0
  | Some _, None, _ => 1
  | Some _, Some _, None => 2
  | Some _, Some _, Some _ => 3
  end.

(** Modelled from the spec: [Req.as_dict()] returns the fields present. *)
Definition as_dict (r : Req) : info :=
  let put (k : string) (o : option value) (m : info) : info :=
    match o with
    | Some v => <[k := v]> m
    | None => m
    end in
  put "name" (VStr <$> req_name r)
    (put "version" (VStr <$> req_version r)
       (put "build" (VInt <$> req_build r) ∅)).

(** The text of an [EnpkgError], kept structured: the constructor is the
    message, its arguments are the values formatted into it. *)
Inductive enpkg_msg :=
| NoEggFound (req : Req)
| PackageNotInstalled (req : Req) (prefix : string)
| InstalledMoreThanOnce (name : option string) (versions : list (value * Z))
| EnpkgOther (msg : string).

Inductive exn :=
| EnpkgError (m : enpkg_msg)
| UnknownAction (label : string)        (* Exception("unknown action: %r") *)
| CannotCreateStore (url : string)      (* Exception("cannot create store: %r") *)
| SystemExit (msg : string)
| AssertionError
| IndexError
| KeyError (key : string)
| TypeError
| UnboundLocalError (var : string)
| Foreign (cls msg : string).           (* raised by a collaborator *)

Inductive result (A : Type) :=
| Ok (a : A)
| Raise (e : exn).
Arguments Ok {A} a.
Arguments Raise {A} e.

Definition bind {A B} (r : result A) (k : A → result B) : result B :=
  match r with
  | Ok a => k a
  | Raise e => Raise e
  end.

Notation "'let*' x ':=' r 'in' k" := (bind r (fun x => k))
  (at level 10, x name, r at level 100, k at level 200).

Definition raises {A} (r : result A) : Prop := ∃ e, r = Raise e.

(** ** indexed_repo/dist_naming.py *)
Module DistNaming.

(** *** The regular-expression fragment [egg_pat] is written in.

    Each combinator takes the continuation that matches the rest of the
    pattern; [re_plus] is the greedy [X+] of a backtracking matcher: it
    first tries to take one more character and falls back to stopping. *)

Definition not_hyphen (c : ascii) : bool := negb (Ascii.eqb c "-"%char).

Definition is_digit (c : ascii) : bool :=
  (48 <=? nat_of_ascii c)%nat && (nat_of_ascii c <=? 57)%nat.

Definition newline : ascii := "010"%char.

Fixpoint re_plus {R} (cls : ascii → bool) (acc : string)
    (k : string → string → option R) (s : string) : option R :=
  match s with
  | EmptyString => None
  | String c s' =>
      if cls c then
        match re_plus cls (acc +:+ String c "") k s' with
        | Some r => Some r
        | None => k (acc +:+ String c "") s'
        end
      else None
  end.

Definition re_char {R} (c : ascii) (k : string → option R) (s : string)
    : option R :=
  match s with
  | String c' s' => if Ascii.eqb c' c then k s' else None
  | EmptyString => None
  end.

(** [.] : any character but a newline. *)
Definition re_any {R} (k : string → option R) (s : string) : option R :=
  match s with
  | String c s' => if Ascii.eqb c newline then None else k s'
  | EmptyString => None
  end.

(** [$] : the end of the string, or just before a newline that ends it. *)
Definition re_eol {R} (k : option R) (s : string) : option R :=
  match s with
  | EmptyString => k
  | String c EmptyString => if Ascii.eqb c newline then k else None
  | _ => None
  end.

(** [egg_pat = re.compile(r'([^-]+)-([^-]+)-(\d+).egg$')], used through
    [egg_pat.match]: anchored at the start; the result is the three
    groups. *)
Definition egg_pat (eggname : string) : option (string * string * string) :=
  re_plus not_hyphen "" (fun g1 =>
  re_char "-"%char (
  re_plus not_hyphen "" (fun g2 =>
  re_char "-"%char (
  re_plus is_digit "" (fun g3 =>
  re_any (
  re_char "e"%char (
  re_char "g"%char (
  re_char "g"%char (
  re_eol (Some (g1, g2, g3))))))))))) eggname.

Definition is_valid_eggname (eggname : string) : bool :=
  bool_decide (is_Some (egg_pat eggname)).

(** [int(s)] on a string of decimal digits. *)
Definition py_int (s : string) : Z :=
  match NilEmpty.uint_of_string s with
  | Some u => Z.of_uint u
  | None => 0%Z
  end.

Definition split_eggname (eggname : string) : result (string * string * Z) :=
  match egg_pat eggname with
  | None => Raise AssertionError
  | Some (g1, g2, g3) => Ok (g1, g2, py_int g3)
  end.

(** ['%d' % n]. *)
Definition fmt_d (n : Z) : string := NilZero.string_of_int (Z.to_int n).

(** The canonical file name ['%s-%s-%d.egg' % (name, version, build)]. *)
Definition format_eggname (nvb : string * string * Z) : string :=
  let '(n, v, b) := nvb in n +:+ "-" +:+ v +:+ "-" +:+ fmt_d b +:+ ".egg".

(** No character of [s] is a hyphen. *)
Definition hyphen_free (s : string) : Prop :=
  ∀ c, c ∈ String.list_ascii_of_string s → c ≠ "-"%char.

(** *** Repository names and distributions.

    The rest of the fragment [DIST_PAT] is written in: a literal, the
    greedy [X*], one character of a class, and the alternative, which
    tries its second branch when the first one, followed by the rest of
    the pattern, fails. *)

Fixpoint re_lit {R} (lit : string) (k : string → option R) (s : string)
    : option R :=
  match lit with
  | EmptyString => k s
  | String c lit' => re_char c (re_lit lit' k) s
  end.

Definition re_star {R} (cls : ascii → bool) (acc : string)
    (k : string → string → option R) (s : string) : option R :=
  match re_plus cls acc k s with
  | Some r => Some r
  | None => k acc s
  end.

Definition re_set {R} (cls : ascii → bool) (acc : string)
    (k : string → string → option R) (s : string) : option R :=
  match s with
  | String c s' => if cls c then k (acc +:+ String c "") s' else None
  | EmptyString => None
  end.

Definition re_alt {R} (a b : string → option R) (s : string) : option R :=
  match a s with
  | Some r => Some r
  | None => b s
  end.

Definition backslash : ascii := "092"%char.

(** [[\\/]], [[^\\/]], [.] and [/] as classes. *)
Definition is_sep (c : ascii) : bool :=
  Ascii.eqb c backslash || Ascii.eqb c "/"%char.

Definition not_sep (c : ascii) : bool := negb (is_sep c).

Definition not_newline (c : ascii) : bool := negb (Ascii.eqb c newline).

Definition is_slash (c : ascii) : bool := Ascii.eqb c "/"%char.

(** [([^\\/]+)$], after a first group that matched [repo]. *)
Definition filename_group (repo : string) (s : string)
    : option (string * string) :=
  re_plus not_sep "" (fun filename => re_eol (Some (repo, filename))) s.

(** [DIST_PAT = re.compile(r'(local:|file://.*[\\/]|http://.+/)([^\\/]+)$')],
    used through [DIST_PAT.match]; the result is the two groups. *)
Definition DIST_PAT (dist : string) : option (string * string) :=
  re_alt (re_lit "local:" (filename_group "local:"))
    (re_alt
       (re_lit "file://"
          (re_star not_newline "file://" (fun g =>
           re_set is_sep g filename_group)))
       (re_lit "http://"
          (re_plus not_newline "http://" (fun g =>
           re_set is_slash g filename_group))))
    dist.

Definition split_dist (dist : string) : result (string * string) :=
  match DIST_PAT dist with
  | None => Raise AssertionError
  | Some (repo, filename) => Ok (repo, filename)
  end.

Definition repo_dist (dist : string) : result string :=
  let* rf := split_dist dist in Ok rf.1.

Definition filename_dist (dist : string) : result string :=
  let* rf := split_dist dist in Ok rf.2.

(** [s.startswith(p)], [s.endswith(p)] and [s[n:]]. *)
Fixpoint startswith (s p : string) {struct p} : bool :=
  match p with
  | EmptyString => true
  | String c p' =>
      match s with
      | String c' s' => Ascii.eqb c' c && startswith s' p'
      | EmptyString => false
      end
  end.

Fixpoint endswith (s p : string) : bool :=
  String.eqb s p ||
  match s with
  | String _ s' => endswith s' p
  | EmptyString => false
  end.

Fixpoint drop_chars (n : nat) (s : string) : string :=
  match n, s with
  | O, _ => s
  | S n', String _ s' => drop_chars n' s'
  | S _, EmptyString => EmptyString
  end.

(** [Exception("Invalid repo string: %r" % repo)], kept as the class and
    the string that is formatted into the message. *)
Definition invalid_repo (repo : string) : exn := Foreign "Exception" repo.

Definition cleanup_reponame (repo : string) : result string :=
  if startswith repo "local:" then
    if String.eqb repo "local:" then Ok repo else Raise AssertionError
  else if startswith repo "http://" then
    if negb (endswith repo "/") then Ok (repo +:+ "/") else Ok repo
  else if startswith repo "file://" then
    let dir_path := drop_chars 7 repo in
    if startswith dir_path "/" then
      if negb (endswith repo "/") then Ok (repo +:+ "/") else Ok repo
    else
      if negb (endswith repo (String backslash ""))
      then Ok (repo +:+ String backslash "")
      else Ok repo
  else Raise (invalid_repo repo).

End DistNaming.


(** ** enpkg.py *)
Module Enpkg.

Inductive store :=
| LocalIndexedStore (dir : string)
| RemoteHTTPIndexedStore (url : string).

Inductive joined_store :=
| JoinedStore (stores : list store).

(** [s.startswith(p)] and [s[n:]]. *)
Definition startswith (s p : string) : bool := String.prefix p s.

Fixpoint string_drop (n : nat) (s : string) : string :=
  match n, s with
  | O, _ => s
  | S n', String _ s' => string_drop n' s'
  | S _, EmptyString => EmptyString
  end.

Section CreateJoinedStore.
(** [os.path.isdir], a question to the file system. *)
Variable isdir : string → bool.

Fixpoint create_stores (stores : list store) (urls : list string)
    : result (list store) :=
  match urls with
  | [] => Ok stores
  | url :: urls' =>
      if startswith url "file://" then
        create_stores (stores ++ [LocalIndexedStore (string_drop 7 url)]) urls'
      else if startswith url "http://" || startswith url "https://" then
        create_stores (stores ++ [RemoteHTTPIndexedStore url]) urls'
      else if isdir url then
        create_stores (stores ++ [LocalIndexedStore url]) urls'
      else Raise (CannotCreateStore url)
  end.

Definition create_joined_store (urls : list string) : result joined_store :=
  let* stores := create_stores [] urls in
  Ok (JoinedStore stores).
End CreateJoinedStore.

(** The first argument of [install_actions]: a [Req] instance or a string
    (an egg file name or a requirement string). *)
Inductive anything :=
| AReq (r : Req)
| AStr (s : string).

(** An [Enpkg] instance with what it reaches through [self]: [Req(...)],
    the resolver over [self.remote], the joined egg collection [self.ec]. *)
Record Enpkg := {
  hook : bool;
  prefix0 : string;                         (* self.prefixes[0] *)
  connected : bool;                         (* self._connected *)
  remote_connect : result unit;             (* self.remote.connect(userpass) *)
  Req_init : string → result Req;           (* Req(req_string) *)
  install_sequence : Req → string → result (option (list string));
  find : string → option info;              (* self.ec.find(egg) *)
  collection0_query : info → list (string * info);
                                            (* self.ec.collections[0].query, by keywords *)
}.

Definition req_from_anything (self : Enpkg) (arg : anything) : result Req :=
  match arg with
  | AReq r => Ok r
  | AStr s =>
      if DistNaming.is_valid_eggname s then
        let* nvb := DistNaming.split_eggname s in
        let '(n, v, b) := nvb in
        Req_init self (n +:+ " " +:+ v +:+ "-" +:+ DistNaming.fmt_d b)
      else Req_init self s
  end.

Definition _connect (self : Enpkg) : result unit :=
  if connected self then Ok tt else remote_connect self.

(** An egg is installed when [find] answers something other than [None]. *)
Definition is_installed (self : Enpkg) (egg : string) : bool :=
  negb (is_None (find self egg)).

(** [rm = lambda eggs: [e for e in eggs if self.find(e) is None]] *)
Definition rm (self : Enpkg) (eggs : list string) : list string :=
  List.filter (fun e => is_None (find self e)) eggs.

Abbreviation action := (string * string)%type.

Definition install_actions (self : Enpkg) (arg : anything) (mode : string)
    (force forceall : bool) : result (list action) :=
  let* req := req_from_anything self arg in
  let* _ := _connect self in
  let* found := install_sequence self req mode in
  match found with
  | None => Raise (EnpkgError (NoEggFound req))
  | Some eggs =>
      let* eggs :=
        if negb forceall then
          if force then
            let front := rm self (removelast eggs) in
            match last eggs with
            | Some leaf => Ok (front ++ [leaf])
            | None => Raise IndexError
            end
          else Ok (rm self eggs)
        else Ok eggs in
      let fetches := map (pair "fetch") eggs in
      let removes :=
        if negb (hook self) then
          map (pair "remove")
            (List.filter (fun egg => truthy (find self egg)) (rev eggs))
        else [] in
      let installs := map (pair "install") eggs in
      Ok (fetches ++ removes ++ installs)
  end.

(** [dict(pairs)]: a later pair with the same key replaces the earlier. *)
Definition py_dict (pairs : list (string * info)) : gmap string info :=
  foldl (fun m kv => <[kv.1 := kv.2]> m) ∅ pairs.

(** [bool(s)] for an optional string. *)
Definition str_truthy (o : option string) : bool :=
  match o with
  | Some s => negb (String.eqb s "")
  | None => false
  end.

(** ['%(version)s-%(build)d' % d], kept as the pair of values formatted. *)
Definition version_build (d : info) : result (value * Z) :=
  match d !! "version" with
  | None => Raise (KeyError "version")
  | Some v =>
      match d !! "build" with
      | None => Raise (KeyError "build")
      | Some (VInt b) | Some (VLong b) => Ok (v, b)
      | Some _ => Raise TypeError
      end
  end.

Fixpoint versions_of (ds : list info) : result (list (value * Z)) :=
  match ds with
  | [] => Ok []
  | d :: ds' =>
      let* vb := version_build d in
      let* rest := versions_of ds' in
      Ok (vb :: rest)
  end.

Definition remove_actions (self : Enpkg) (req : Req) : result (list action) :=
  if negb (str_truthy (req_name req)) then Raise AssertionError else
  let index := py_dict (collection0_query self (as_dict req)) in
  if bool_decide (size index = 0) then
    Raise (EnpkgError (PackageNotInstalled req (prefix0 self)))
  else if bool_decide (1 < size index) then
    if negb (hook self) then Raise AssertionError else
    let* versions := versions_of (map snd (map_to_list index)) in
    Raise (EnpkgError (InstalledMoreThanOnce (req_name req) versions))
  else
    match map_to_list index with
    | (key, _) :: _ => Ok [("remove", key)]
    | [] => Raise IndexError
    end.

(** *** The executor.

    The world [W] holds everything the actions act on: the prefixes, the
    local cache, the progress display.  A collaborator's call returns the
    world it leaves and the exception it raised, if any. *)
Section Executor.
Context {W : Type}.
Variable fetch : string → W → W * option exn.       (* self.fetch(egg) *)
Variable ec_remove : string → W → W * option exn.   (* self.ec.remove(egg) *)
Variable get_metadata : string → W → result info.   (* self.remote.get_metadata *)
Variable ec_install : string → info → W → W * option exn.
Variable begin_super : list action → W → W. (* super_id, ProgressManager, entering it *)
Variable progress : nat → W → W.            (* progress(step=n) *)
Variable progress_exit : W → W.             (* leaving the with block *)
Variable end_super : W → W.                 (* super_id = None *)

Definition run_action (a : action) (w : W) : W * option exn :=
  let '(label, egg) := a in
  if String.eqb label "fetch" then fetch egg w
  else if String.eqb label "remove" then
    match ec_remove egg w with
    | (w', Some (EnpkgError _)) => (w', None)
    | other => other
    end
  else if String.eqb label "install" then
    match get_metadata egg w with
    | Ok i => ec_install egg i w
    | Raise e => (w, Some e)
    end
  else (w, Some (UnknownAction label)).

(** [for n, (action, egg) in enumerate(actions)], from step [n] on. *)
Fixpoint run_actions (n : nat) (actions : list action) (w : W)
    : W * option exn :=
  match actions with
  | [] => (w, None)
  | a :: rest =>
      match run_action a w with
      | (w', Some e) => (w', Some e)
      | (w', None) => run_actions (S n) rest (progress n w')
      end
  end.

Definition execute_actions (actions : list action) (w : W)
    : W * option exn :=
  match actions with
  | [] => (w, None)
  | _ =>
      match run_actions 0 actions (begin_super actions w) with
      | (w', Some e) => (progress_exit w', Some e)
      | (w', None) => (end_super (progress_exit w'), None)
      end
  end.

(** [install] and [remove]: the plan, then its execution. *)
Definition install (self : Enpkg) (arg : anything) (mode : string)
    (force forceall : bool) (w : W) : W * option exn :=
  match install_actions self arg mode force forceall with
  | Ok actions => execute_actions actions w
  | Raise e => (w, Some e)
  end.

Definition remove (self : Enpkg) (req : Req) (w : W) : W * option exn :=
  match remove_actions self req with
  | Ok actions => execute_actions actions w
  | Raise e => (w, Some e)
  end.
End Executor.

End Enpkg.


(** ** indexed_repo/metadata.py *)
Module Metadata.

(** [data.splitlines()] for a str: a line ends at a line feed, a carriage
    return or the pair of them; the line that [cur] holds is still open. *)
Fixpoint splitlines_from (cur : string) (data : string) : list string :=
  match data with
  | EmptyString =>
      match cur with
      | EmptyString => []
      | _ => [cur]
      end
  | String c rest =>
      if Ascii.eqb c "010"%char then cur :: splitlines_from "" rest
      else if Ascii.eqb c "013"%char then
        match rest with
        | String c' rest' =>
            if Ascii.eqb c' "010"%char then cur :: splitlines_from "" rest'
            else cur :: splitlines_from "" rest
        | EmptyString => cur :: splitlines_from "" rest
        end
      else splitlines_from (cur +:+ String c "") rest
  end.

Definition splitlines (data : string) : list string := splitlines_from "" data.

(** [\s] : space, tab, line feed, vertical tab, form feed, carriage
    return. *)
Definition is_space (c : ascii) : bool :=
  let n := nat_of_ascii c in
  Nat.eqb n 32 || ((9 <=? n)%nat && (n <=? 13)%nat).

Definition not_space (c : ascii) : bool := negb (is_space c).

(** [line.rstrip()] *)
Fixpoint rstrip (line : string) : string :=
  match line with
  | EmptyString => EmptyString
  | String c rest =>
      match rstrip rest with
      | EmptyString => if is_space c then EmptyString else String c EmptyString
      | kept => String c kept
      end
  end.

(** [sep_pat = re.compile(r'==>\s*(\S+)\s*<==')], used through
    [sep_pat.match]; the result is the group. *)
Definition sep_pat (line : string) : option string :=
  DistNaming.re_lit "==>" (
  DistNaming.re_star is_space "" (fun _ =>
  DistNaming.re_plus not_space "" (fun fn =>
  DistNaming.re_star is_space "" (fun _ =>
  DistNaming.re_lit "<==" (fun _ => Some fn))))) line.

(** ['\n'.join(lines)] *)
Fixpoint join_lines (lines : list string) : string :=
  match lines with
  | [] => ""
  | [line] => line
  | line :: rest => line +:+ String "010"%char (join_lines rest)
  end.

(** The loop of [parse_index]: [fn] is the local of that name, unbound
    until the first header; [d] is the [defaultdict(list)]. *)
Fixpoint parse_lines (fn : option string) (d : gmap string (list string))
    (lines : list string) : result (gmap string (list string)) :=
  match lines with
  | [] => Ok d
  | line :: rest =>
      match sep_pat line with
      | Some name => parse_lines (Some name) d rest
      | None =>
          match fn with
          | None => Raise (UnboundLocalError "fn")
          | Some name =>
              parse_lines fn
                (<[name := default [] (d !! name) ++ [rstrip line]]> d) rest
          end
      end
  end.

Definition parse_index (data : string) : result (gmap string string) :=
  let* d := parse_lines None ∅ (splitlines data) in
  Ok (join_lines <$> d).

(** [data.replace('\r', '')] *)
Fixpoint remove_cr (data : string) : string :=
  match data with
  | EmptyString => EmptyString
  | String c rest =>
      if Ascii.eqb c "013"%char then remove_cr rest
      else String c (remove_cr rest)
  end.

(** [d[k]] *)
Definition getitem (d : info) (k : string) : result value :=
  match d !! k with
  | Some v => Ok v
  | None => Raise (KeyError k)
  end.

(** [x >= s] for a str [s], in the ordering of Python 2: strings compare
    byte by byte; [None], numbers and lists sort below every string. *)
Definition ge_str (x : value) (s : string) : bool :=
  match x with
  | VStr t => String.leb s t
  | _ => false
  end.

(** [isinstance(x, str) and len(x) == 32] *)
Definition is_str_of_32 (x : value) : bool :=
  match x with
  | VStr s => Nat.eqb (String.length s) 32
  | _ => false
  end.

(** [isinstance(x, int)] *)
Definition is_int (x : value) : bool :=
  match x with
  | VInt _ => true
  | _ => false
  end.

Definition var_names (index : bool) : list string :=
  ["metadata_version"; "name"; "version"; "build";
   "arch"; "platform"; "osdist"; "python"; "packages"]
  ++ (if index then ["md5"; "size"] else []).

(** [for name in var_names: res[name] = spec[name]] *)
Fixpoint copy_vars (spec : info) (names : list string) (res : info)
    : result info :=
  match names with
  | [] => Ok res
  | name :: rest =>
      let* v := getitem spec name in
      copy_vars spec rest (<[name := v]> res)
  end.

Section IndexSection.
Variable basename : string → string.             (* os.path.basename *)
Variable join : string → string → string.        (* os.path.join *)
Variable getsize : string → Z.                   (* os.path.getsize *)
Variable md5_hexdigest : string → string.
                      (* hexdigest of the md5 of the file, read by chunks *)
Variable rawspec_from_dist : string → result string.

Definition LF : string := String "010"%char "".

(** ['%r'] of a string of hexadecimal digits: the string in single
    quotes. *)
Definition repr_hex (s : string) : string := "'" +:+ s +:+ "'".

Definition index_section (zip_path : string) : result string :=
  let* rawspec := rawspec_from_dist zip_path in
  Ok (("==> " +:+ basename zip_path +:+ " <==" +:+ LF) +:+
      ("size = " +:+ DistNaming.fmt_d (getsize zip_path) +:+ LF) +:+
      ("md5 = " +:+ repr_hex (md5_hexdigest zip_path) +:+ LF +:+ LF) +:+
      rawspec +:+ LF).

(** [write_index]: the text it writes to index-depend.txt, given
    [listing = sorted(os.listdir(dir_path), key=string.lower)]. *)
Fixpoint write_index (dir_path : string) (valid_eggnames : bool)
    (listing : list string) : result string :=
  match listing with
  | [] => Ok ""
  | fn :: rest =>
      if negb (DistNaming.endswith fn ".egg") then
        write_index dir_path valid_eggnames rest
      else if valid_eggnames && negb (DistNaming.is_valid_eggname fn) then
        write_index dir_path valid_eggnames rest
      else
        let* section := index_section (join dir_path fn) in
        let* more := write_index dir_path valid_eggnames rest in
        Ok (section +:+ more)
  end.
End IndexSection.

Section ParseData.
(** [exec code in spec] for an empty [spec]: the names the section binds
    and their values (with whatever else the interpreter puts into the
    namespace), or the exception the code raises. *)
Variable py_exec : string → result info.

Definition parse_data (data : string) (index : bool) : result info :=
  let* spec := py_exec (remove_cr data) in
  let* version := getitem spec "metadata_version" in
  if negb (ge_str version "1.1") then Raise AssertionError else
  let* _ :=
    if index then
      let* md5 := getitem spec "md5" in
      if negb (is_str_of_32 md5) then Raise AssertionError else
      let* size := getitem spec "size" in
      if negb (is_int size) then Raise AssertionError else Ok tt
    else Ok tt in
  copy_vars spec (var_names index) ∅.
End ParseData.

End Metadata.

(** ** main.py *)
Module Main.

(** What [revert] has done to the prefix and the cache, in order. *)
Inductive event :=
| Removed (fn : string)
| Fetched (dist : string)
| Installed (fn : string).

Section Revert.
Context {W Rev : Type}.
Variable parse_rev : string → option Rev.       (* int(rev_in), or parse_dt.parse *)
Variable repr_str : string → string.            (* '%r' % rev_in *)
Variable repr_rev : Rev → string.               (* '%r' % rev *)
Variable get_state : Rev → W → option (gset string).  (* history.get_state *)
Variable get_installed : W → list string.       (* egginst.get_installed() *)
Variable remove_egg : string → W → W * option exn.    (* enst.remove_egg(fn) *)
Variable isfile : string → W → bool.            (* os.path.isfile *)
Variable join : string → string → string.       (* os.path.join *)
Variable egg_dir : string.                      (* enst.egg_dir *)
Variable dry_run : bool.                        (* enst.dry_run *)
Variable get_dist : string → result (option string).
                      (* enst.chain.get_dist(filename_as_req(fn)) *)
Variable fetch_dist : string → string → bool → W → W * option exn.
                      (* enst.chain.fetch_dist(dist, egg_dir, dry_run) *)
Variable egg_install : string → W → W * option exn.
                      (* EggInst(egg_path).install() *)
Variable history_update : W → W * option exn.   (* history.update() *)

(** The world together with the log of what was done so far. *)
Definition logged : Type := W * list event.

(** One pass through the body of a loop: the world the call leaves and,
    when it did not raise, its entry in the log. *)
Definition logging (step : string → W → W * option exn)
    (entry : string → W → list event) (fn : string) (s : logged)
    : logged * option exn :=
  match step fn s.1 with
  | (w', None) => ((w', s.2 ++ entry fn s.1), None)
  | (w', Some e) => ((w', s.2), Some e)
  end.

(** [for fn in fns: body]; nothing catches what the body raises, so the
    loop ends there. *)
Fixpoint each (body : string → logged → logged * option exn)
    (fns : list string) (s : logged) : logged * option exn :=
  match fns with
  | [] => (s, None)
  | fn :: rest =>
      match body fn s with
      | (s', None) => each body rest s'
      | (s', Some e) => (s', Some e)
      end
  end.

Definition do_remove : string → logged → logged * option exn :=
  logging remove_egg (fun fn _ => [Removed fn]).

(** [dist = enst.chain.get_dist(...)] and [if dist:]. *)
Definition found_dist (fn : string) : result (option string) :=
  let* dist := get_dist fn in
  match dist with
  | Some d => if String.eqb d "" then Ok None else Ok (Some d)
  | None => Ok None
  end.

Definition fetch_step (fn : string) (w : W) : W * option exn :=
  match found_dist fn with
  | Raise e => (w, Some e)
  | Ok (Some dist) => fetch_dist dist egg_dir dry_run w
  | Ok None => (w, None)
  end.

Definition do_fetch : string → logged → logged * option exn :=
  logging fetch_step
    (fun fn _ => match found_dist fn with
                 | Ok (Some dist) => [Fetched dist]
                 | _ => []
                 end).

Definition install_step (fn : string) (w : W) : W * option exn :=
  let egg_path := join egg_dir fn in
  if isfile egg_path w then egg_install egg_path w else (w, None).

Definition do_install : string → logged → logged * option exn :=
  logging install_step
    (fun fn w => if isfile (join egg_dir fn) w then [Installed fn] else []).

(** [revert] from the point where the target [state] is known. *)
Definition revert_to (state : gset string) (w : W) : logged * option exn :=
  let curr : gset string := list_to_set (get_installed w) in
  if bool_decide (state = curr) then ((w, []), None)
  else
    match each do_remove (elements (curr ∖ state)) (w, []) with
    | (s1, Some e) => (s1, Some e)
    | (s1, None) =>
        let to_install := elements (state ∖ curr) in
        let need_fetch :=
          List.filter (fun fn => negb (isfile (join egg_dir fn) s1.1))
            to_install in
        match each do_fetch need_fetch s1 with
        | (s2, Some e) => (s2, Some e)
        | (s2, None) =>
            match each do_install to_install s2 with
            | (s3, Some e) => (s3, Some e)
            | (s3, None) =>
                let '(w', raised) := history_update s3.1 in
                ((w', s3.2), raised)
            end
        end
    end.

Definition revert (rev_in : string) (w : W) : logged * option exn :=
  match parse_rev rev_in with
  | None =>
      ((w, []),
       Some (SystemExit ("Error: could not parse: " +:+ repr_str rev_in)))
  | Some rev =>
      match get_state rev w with
      | None =>
          ((w, []),
           Some (SystemExit ("Error: no such revision: " +:+ repr_rev rev)))
      | Some state => revert_to state w
      end
  end.
End Revert.

(** [iter_dists_excl]: the distributions the generator yields, and the
    exception that ends it, if any. *)
Fixpoint iter_dists_excl (dists : list string) (exclude_fn : list string)
    : list string * option exn :=
  match dists with
  | [] => ([], None)
  | dist :: rest =>
      match DistNaming.filename_dist dist with
      | Raise e => ([], Some e)
      | Ok fn =>
          let more := iter_dists_excl rest exclude_fn in
          if bool_decide (fn ∈ exclude_fn) then more
          else (dist :: more.1, more.2)
      end
  end.

Section RemoveReq.
Context {W : Type}.
Variable remove : Req → W → W * option exn.      (* enpkg.remove(req) *)

(** [remove_req]: the world it leaves, the messages it prints and the
    exception it lets through. *)
Definition remove_req (req : Req) (w : W)
    : W * list enpkg_msg * option exn :=
  match remove req w with
  | (w', Some (EnpkgError m)) => (w', [m], None)
  | (w', other) => (w', [], other)
  end.
End RemoveReq.

End Main.

(** ** proxy/util.py *)
Module ProxyUtil.

(** What a proxy-info dict holds: [None], a string, or the integer port. *)
Inductive pval :=
| PNone
| PStr (s : string)
| PInt (z : Z).

Abbreviation pinfo := (gmap string pval).

(** [d.get(k)] *)
Definition get (d : pinfo) (k : string) : pval := default PNone (d !! k).

(** [x is not None and len(x) > 0] *)
Definition given (x : pval) : result bool :=
  match x with
  | PNone => Ok false
  | PStr s => Ok (negb (String.eqb s ""))
  | PInt _ => Raise TypeError
  end.

(** ['%(k)s' % d] *)
Definition fmt_s (d : pinfo) (k : string) : result string :=
  match d !! k with
  | Some PNone => Ok "None"
  | Some (PStr s) => Ok s
  | Some (PInt z) => Ok (DistNaming.fmt_d z)
  | None => Raise (KeyError k)
  end.

(** The local [proxystr] is bound inside [if host ...] only. *)
Definition get_proxystr (pinfo : pinfo) : result string :=
  let host := get pinfo "host" in
  let user := get pinfo "user" in
  let* has_host := given host in
  let* proxystr :=
    if has_host then
      let* has_user := given user in
      if has_user then
        let* u := fmt_s pinfo "user" in
        let* p := fmt_s pinfo "pass" in
        let* h := fmt_s pinfo "host" in
        let* n := fmt_s pinfo "port" in
        Ok (Some (u +:+ ":" +:+ p +:+ "@" +:+ h +:+ ":" +:+ n))
      else
        let* h := fmt_s pinfo "host" in
        let* n := fmt_s pinfo "port" in
        Ok (Some (h +:+ ":" +:+ n))
    else Ok None in
  match proxystr with
  | Some s => Ok s
  | None => Raise (UnboundLocalError "proxystr")
  end.

(** The opener urllib2 has installed: the proxies of its handler. *)
Abbreviation opener := (option (gmap string string)).

Definition install_proxy_handlers (pinfo : pinfo) (installed : opener)
    : result opener :=
  let* proxystr := get_proxystr pinfo in
  if negb (String.eqb proxystr "")
  then Ok (Some (<["http" := proxystr]> (<["https" := proxystr]> ∅)))
  else Ok installed.

Section ProxyInfo.
Variable environ : gmap string string.          (* os.environ *)
Variable _parse_proxy :
  string → result (option string * option string * string).
                      (* urllib2._parse_proxy: user, password, host:port *)
Variable splitport : string → string * option string.   (* urllib2.splitport *)
Variable getpass : string.                      (* what getpass.getpass() reads *)

Definition default_port : pval := PInt 80.

Definition of_option (o : option string) : pval :=
  match o with
  | Some s => PStr s
  | None => PNone
  end.

(** [s is None or len(s) < 1] *)
Definition missing (o : option string) : bool :=
  match o with
  | None => true
  | Some s => String.eqb s ""
  end.

Definition get_proxy_info (proxystr : option string) : result pinfo :=
  let* proxy_info :=
    match (if missing proxystr then None else proxystr) with
    | None =>
        Ok (<["host" := of_option (environ !! "PROXY_HOST")]>
           (<["port" := match environ !! "PROXY_PORT" with
                        | Some p => PStr p
                        | None => default_port
                        end]>
           (<["user" := of_option (environ !! "PROXY_USER")]>
           (<["pass" := of_option (environ !! "PROXY_PASS")]> ∅))))
    | Some s =>
        let* parsed := _parse_proxy s in
        let '(user, passwd, host_port) := parsed in
        let '(host, port) := splitport host_port in
        Ok (<["host" := PStr host]>
           (<["port" := if missing port then default_port
                        else of_option port]>
           (<["user" := of_option user]>
           (<["pass" := of_option passwd]> ∅))))
    end in
  let user := get proxy_info "user" in
  let* has_user := given user in
  if has_user then
    let passwd := get proxy_info "pass" in
    let* has_pass := given passwd in
    if negb has_pass
    then Ok (<["pass" := PStr getpass]> proxy_info)
    else Ok proxy_info
  else Ok proxy_info.

Definition is_not_None (x : pval) : bool :=
  match x with
  | PNone => false
  | _ => true
  end.

Definition setup_proxy (proxystr : option string) (installed : opener)
    : result (bool * opener) :=
  let* info := get_proxy_info proxystr in
  if is_not_None (get info "host") then
    let* installed' := install_proxy_handlers info installed in
    Ok (true, installed')
  else Ok (false, installed).
End ProxyInfo.

End ProxyUtil.
(** * Vocabulary of the properties *)

(** ** Plans of [install_actions] *)

(** The eggs a plan names under one label, in plan order. *)
Definition eggs_of (label : string) (plan : list Enpkg.action) : list string :=
  map snd (List.filter (fun a => String.eqb a.1 label) plan).

(** Every tuple labelled [l1] stands before every tuple labelled [l2]. *)
Definition all_before (l1 l2 : string) (plan : list Enpkg.action) : Prop :=
  ∀ i j e1 e2,
    plan !! i = Some (l1, e1) → plan !! j = Some (l2, e2) → i < j.

(** The plan fetches and installs exactly [kept], and names no other egg. *)
Definition plans_exactly (plan : list Enpkg.action) (kept : list string) : Prop :=
  eggs_of "fetch" plan = kept ∧
  eggs_of "install" plan = kept ∧
  ∀ a, a ∈ plan → a.2 ∈ kept.


(** ** Scenarios

    Concrete instances the statements below are tried on. *)
Module Scenario.

(** The entry of an installed egg: its key and, for a valid egg name, the
    name, version and build the name spells. *)
Definition entry (egg : string) : info :=
  match DistNaming.split_eggname egg with
  | Ok (n, v, b) =>
      <["key" := VStr egg]> (<["name" := VStr n]> (<["version" := VStr v]>
        (<["build" := VInt b]> ∅)))
  | Raise _ => {[ "key" := VStr egg ]}
  end.

(** An [Enpkg] over one prefix with the eggs [installed] in it, whose
    resolver answers [sequence] whatever the requirement. *)
Definition enpkg (plain : bool) (installed sequence : list string)
    : Enpkg.Enpkg :=
  {| Enpkg.hook := negb plain;
     Enpkg.prefix0 := "/usr/local";
     Enpkg.connected := false;
     Enpkg.remote_connect := Ok tt;
     Enpkg.Req_init := fun s => Ok (mkReq (Some s) None None);
     Enpkg.install_sequence := fun _ _ => Ok (Some sequence);
     Enpkg.find := fun egg =>
       if bool_decide (egg ∈ installed) then Some (entry egg) else None;
     Enpkg.collection0_query := fun _ =>
       map (fun egg => (egg, entry egg)) installed |}.

(** Scenario 2 of the spec: foo 1.0.0 installed, foo 1.1.0 chosen; the
    answers of [find] are left open. *)
Definition upgrade_foo (find : string → option info) : Enpkg.Enpkg :=
  {| Enpkg.hook := false;
     Enpkg.prefix0 := "/usr/local";
     Enpkg.connected := false;
     Enpkg.remote_connect := Ok tt;
     Enpkg.Req_init := fun s => Ok (mkReq (Some s) None None);
     Enpkg.install_sequence := fun _ _ => Ok (Some ["foo-1.1.0-1.egg"]);
     Enpkg.find := find;
     Enpkg.collection0_query := fun _ =>
       [("foo-1.0.0-1.egg", entry "foo-1.0.0-1.egg")] |}.

(** [find] by key, as its docstring has it. *)
Definition find_by_key (installed : list string) (egg : string) : option info :=
  if bool_decide (egg ∈ installed) then Some (entry egg) else None.

End Scenario.

(** ** Stores of [create_joined_store] *)

(** The URL forms [create_joined_store] takes: a [file://] URL, an
    [http://] or [https://] URL, or the path of a directory that exists. *)
Definition accepted_url (isdir : string → bool) (url : string) : bool :=
  Enpkg.startswith url "file://" || Enpkg.startswith url "http://"
  || Enpkg.startswith url "https://" || isdir url.

(** The store each of these forms stands for. *)
Definition store_for (url : string) : Enpkg.store :=
  if Enpkg.startswith url "file://" then
    Enpkg.LocalIndexedStore (Enpkg.string_drop 7 url)
  else if Enpkg.startswith url "http://" || Enpkg.startswith url "https://" then
    Enpkg.RemoteHTTPIndexedStore url
  else Enpkg.LocalIndexedStore url.

(** ** Entries of an egg collection *)

(** An installed-egg entry carries the version and the integer build of its
    metadata record. *)
Definition has_version_build (d : info) : Prop :=
  ∃ v b, d !! "version" = Some v ∧
         (d !! "build" = Some (VInt b) ∨ d !! "build" = Some (VLong b)).

(** ** A world for the executor *)
Module ExecScenario.

(** The world is the log of what was done to it. *)
Definition world := list (string * string).

Definition fetch (egg : string) (w : world) : world * option exn :=
  if String.eqb egg "gone-1-1.egg"
  then (w, Some (Foreign "KeyError" egg))
  else (w ++ [("fetched", egg)], None).

Definition ec_remove (egg : string) (w : world) : world * option exn :=
  if bool_decide (("installed", egg) ∈ w)
  then (w ++ [("removed", egg)], None)
  else (w, Some (EnpkgError (EnpkgOther "not installed"))).

Definition get_metadata (egg : string) (w : world) : result info :=
  if String.eqb egg "gone-1-1.egg"
  then Raise (KeyError egg)
  else Ok (Scenario.entry egg).

Definition ec_install (egg : string) (i : info) (w : world)
    : world * option exn :=
  if String.eqb egg "broken-1-1.egg"
  then (w, Some (Foreign "IOError" egg))
  else (w ++ [("installed", egg)], None).

Definition run := Enpkg.run_actions fetch ec_remove get_metadata ec_install
                    (fun _ w => w).

Definition execute_actions :=
  Enpkg.execute_actions fetch ec_remove get_metadata ec_install
    (fun _ w => w) (fun _ w => w) (fun w => w) (fun w => w).

End ExecScenario.

(** ** A proxy environment *)
Module ProxyScenario.

(** [PROXY_HOST] is set, and empty. *)
Definition environ : gmap string string := {[ "PROXY_HOST" := "" ]}.

(** Stand-ins for urllib2's parsers: no user, no port. *)
Definition _parse_proxy (s : string)
    : result (option string * option string * string) :=
  Ok (None, None, s).

Definition splitport (s : string) : string * option string := (s, None).

End ProxyScenario.

(** ** An index section *)
Module MetadataScenario.

(** The namespace a well-formed index section leaves, with one
    assignment the format does not know. *)
Definition namespace : info :=
  list_to_map
    [("metadata_version", VStr "1.1"); ("name", VStr "foo");
     ("version", VStr "1.0.0"); ("build", VInt 1);
     ("arch", VNone); ("platform", VNone); ("osdist", VNone);
     ("python", VStr "2.7"); ("packages", VList ["bar 2.0"]);
     ("md5", VStr "0123456789abcdef0123456789abcdef");
     ("size", VInt 4096); ("comment", VStr "ignored")].

Definition py_exec (code : string) : result info := Ok namespace.

(** The record [parse_data] makes of it. *)
Definition record : info :=
  list_to_map
    [("metadata_version", VStr "1.1"); ("name", VStr "foo");
     ("version", VStr "1.0.0"); ("build", VInt 1);
     ("arch", VNone); ("platform", VNone); ("osdist", VNone);
     ("python", VStr "2.7"); ("packages", VList ["bar 2.0"]);
     ("md5", VStr "0123456789abcdef0123456789abcdef");
     ("size", VInt 4096)].

End MetadataScenario.

(** ** Runs of [revert] *)





Module RevertScenario.

(** The eggs installed in the prefix and the files of the cache. *)
Record world := {
  installed : list string;
  cache : gset string;
}.

Definition egg_dir : string := "/usr/local/LOCAL-REPO".
Definition repo : string := "http://repo/".

Definition join (dir fn : string) : string := dir +:+ "/" +:+ fn.

Definition remove_egg (fn : string) (w : world) : world * option exn :=
  ({| installed := List.filter (fun e => negb (String.eqb e fn)) (installed w);
      cache := cache w |}, None).

Definition isfile (path : string) (w : world) : bool :=
  bool_decide (path ∈ cache w).

(** A chain that serves the eggs of [index]. *)
Definition get_dist (index : list string) (fn : string)
    : result (option string) :=
  if bool_decide (fn ∈ index) then Ok (Some (repo +:+ fn)) else Ok None.

(** The download of [lost-1-1.egg] fails. *)
Definition fetch_dist (dist dir : string) (dry_run : bool) (w : world)
    : world * option exn :=
  if String.eqb dist (repo +:+ "lost-1-1.egg")
  then (w, Some (Foreign "URLError" dist))
  else if dry_run then (w, None) else
  ({| installed := installed w;
      cache := {[ join dir (Enpkg.string_drop (String.length repo) dist) ]}
               ∪ cache w |}, None).

Definition egg_install (egg_path : string) (w : world) : world * option exn :=
  ({| installed :=
        installed w
        ++ [Enpkg.string_drop (S (String.length egg_dir)) egg_path];
      cache := cache w |}, None).

Definition revert_to (index : list string) :=
  Main.revert_to installed remove_egg isfile join egg_dir false
    (get_dist index) fetch_dist egg_install (fun w => (w, None)).

End RevertScenario.

(** ** Strings over a character class *)

(** Every character of [s] is in the class [cls]. *)
Fixpoint string_forall (cls : ascii → bool) (s : string) : bool :=
  match s with
  | EmptyString => true
  | String c s' => cls c && string_forall cls s'
  end.

(** A greedy [cls+] cannot go on into [s]: [s] is empty or starts with a
    character outside the class. *)
Definition stops (cls : ascii → bool) (s : string) : bool :=
  match s with
  | EmptyString => true
  | String c _ => negb (cls c)
  end.

(** ** The shape of an accepted egg name *)

(** [e] reads: name, hyphen, version, hyphen, digits, one character that
    is not a newline, the letters egg, and at most one final newline. *)
Definition egg_shape (e n v d : string) : Prop :=
  ∃ c tail,
    e = n +:+ "-" +:+ v +:+ "-" +:+ d +:+ String c ("egg" +:+ tail) ∧
    n ≠ "" ∧ string_forall DistNaming.not_hyphen n = true ∧
    v ≠ "" ∧ string_forall DistNaming.not_hyphen v = true ∧
    d ≠ "" ∧ string_forall DistNaming.is_digit d = true ∧
    c ≠ DistNaming.newline ∧
    (tail = "" ∨ tail = String DistNaming.newline "").

(** ** Proxies *)

(** The proxies of the handler [install_proxy_handlers] installs. *)
Definition proxies (proxystr : string) : gmap string string :=
  <["http" := proxystr]> (<["https" := proxystr]> ∅).

(** The port the environment gives, as ['%s'] prints it. *)
Definition port_text (environ : gmap string string) : string :=
  match environ !! "PROXY_PORT" with
  | Some p => p
  | None => "80"
  end.

(** ** Distributions *)

(** A repository name as [DIST_PAT] reads one: 'local:', or 'file://',
    any characters but a newline and a slash or a backslash, or 'http://',
    at least one character, none a newline, and a slash. *)
Definition repo_shape (repo : string) : Prop :=
  repo = "local:" ∨
  (∃ m c, repo = "file://" +:+ m +:+ String c "" ∧
          string_forall DistNaming.not_newline m = true ∧
          DistNaming.is_sep c = true) ∨
  (∃ m, repo = "http://" +:+ m +:+ "/" ∧ m ≠ "" ∧
        string_forall DistNaming.not_newline m = true).

(** A file name: not empty, and free of slashes and backslashes. *)
Definition filename_shape (filename : string) : Prop :=
  filename ≠ "" ∧ string_forall DistNaming.not_sep filename = true.

(** The distribution of a repository and a file name. *)
Definition dist_of (rf : string * string) : string := rf.1 +:+ rf.2.

Definition well_formed (rf : string * string) : Prop :=
  repo_shape rf.1 ∧ filename_shape rf.2.

(** The distributions whose file name is not excluded. *)
Definition not_excluded (exclude_fn : list string) (pairs : list (string * string))
    : list (string * string) :=
  List.filter (fun rf => negb (bool_decide (rf.2 ∈ exclude_fn))) pairs.

(** ** Index files *)

(** The lines of text that stand under a header naming [name]; [cur] is
    the header in force where [lines] start. *)
Fixpoint body_of (name : string) (cur : option string) (lines : list string)
    : list string :=
  match lines with
  | [] => []
  | line :: rest =>
      match Metadata.sep_pat line with
      | Some header => body_of name (Some header) rest
      | None =>
          if bool_decide (cur = Some name)
          then line :: body_of name cur rest
          else body_of name cur rest
      end
  end.

(** The section of an index made of the lines [body]: none without a
    line, else the lines without their trailing blanks, joined. *)
Definition section_of (body : list string) : option string :=
  match body with
  | [] => None
  | _ => Some (Metadata.join_lines (Metadata.rstrip <$> body))
  end.

(** ** Sections of an index *)

(** Neither a line feed nor a carriage return. *)
Definition not_eol (c : ascii) : bool :=
  negb (Ascii.eqb c "010"%char || Ascii.eqb c "013"%char).

(** A digit of a hexdigest. *)
Definition is_hex (c : ascii) : bool :=
  DistNaming.is_digit c ||
  ((97 <=? nat_of_ascii c)%nat && (nat_of_ascii c <=? 102)%nat).

(** A line of text of a section: no line break in it, and no header. *)
Definition text_line (line : string) : Prop :=
  string_forall not_eol line = true ∧ Metadata.sep_pat line = None.

(** The lines of the section of an egg: its size, its md5, a blank line,
    the lines of its spec. *)
Definition section_lines (size : Z) (md5 : string) (raw : list string)
    : list string :=
  ("size = " +:+ DistNaming.fmt_d size) ::
  ("md5 = " +:+ Metadata.repr_hex md5) :: "" :: raw.

(** The file names [write_index] makes a section for. *)
Definition indexed (valid_eggnames : bool) (fn : string) : bool :=
  DistNaming.endswith fn ".egg" &&
  (negb valid_eggnames || DistNaming.is_valid_eggname fn).

(** The lines of the section [write_index] makes for the file [fn] of
    [dir_path], whose spec has the lines [raw_lines fn]. *)
Definition lines_of (join : string → string → string) (getsize : string → Z)
    (md5_hexdigest : string → string) (dir_path : string)
    (raw_lines : string → list string) (fn : string) : list string :=
  section_lines (getsize (join dir_path fn))
    (md5_hexdigest (join dir_path fn)) (raw_lines fn).

(** What the file [fn] must be like for its section to be read back: its
    base name is [fn] and holds no blank, its size is not negative, its
    md5 is in hexadecimal digits, and its spec is the lines [raw_lines fn],
    at least one, none of them a header or broken. *)
Definition well_indexed (basename : string → string)
    (join : string → string → string) (getsize : string → Z)
    (md5_hexdigest : string → string)
    (rawspec_from_dist : string → result string) (dir_path : string)
    (raw_lines : string → list string) (fn : string) : Prop :=
  let zip_path := join dir_path fn in
  basename zip_path = fn ∧
  string_forall Metadata.not_space fn = true ∧
  (0 ≤ getsize zip_path)%Z ∧
  string_forall is_hex (md5_hexdigest zip_path) = true ∧
  raw_lines fn ≠ [] ∧ Forall text_line (raw_lines fn) ∧
  rawspec_from_dist zip_path = Ok (Metadata.join_lines (raw_lines fn)).

(** A directory with one egg and one other file. *)
Module IndexScenario.

Definition dir_path : string := "/repo".

Definition join (dir fn : string) : string := dir +:+ "/" +:+ fn.

Definition basename (path : string) : string := DistNaming.drop_chars 6 path.

Definition getsize (path : string) : Z := 4096.

Definition md5_hexdigest (path : string) : string :=
  "0123456789abcdef0123456789abcdef".

Definition raw_lines (fn : string) : list string :=
  ["metadata_version = '1.1'"; "name = 'foo'"; ""].

Definition rawspec_from_dist (path : string) : result string :=
  Ok (Metadata.join_lines (raw_lines path)).

Definition listing : list string := ["README.txt"; "foo-1.0-1.egg"].

End IndexScenario.
(** * Properties *)

(** ** Plans of [install_actions] *)

Lemma eggs_of_app l p q : eggs_of l (p ++ q) = eggs_of l p ++ eggs_of l q.
Proof. unfold eggs_of. by rewrite List.filter_app, map_app. Qed.

Lemma eggs_of_same l es : eggs_of l (map (pair l) es) = es.
Proof.
  unfold eggs_of. induction es as [|e es IH]; [done|].
  simpl. rewrite String.eqb_refl. simpl. by rewrite IH.
Qed.

Lemma eggs_of_other l l' es : l' ≠ l → eggs_of l (map (pair l') es) = [].
Proof.
  intros Hne. unfold eggs_of. induction es as [|e es IH]; [done|].
  simpl. destruct (String.eqb_spec l' l) as [->|_]; [done|]. exact IH.
Qed.

Lemma elem_of_List_filter {A} (f : A → bool) (l : list A) x :
  x ∈ List.filter f l ↔ x ∈ l ∧ f x = true.
Proof. rewrite !list_elem_of_In. apply filter_In. Qed.

Lemma List_filter_sublist {A} (f : A → bool) (l : list A) :
  List.filter f l `sublist_of` l.
Proof.
  induction l as [|x l IH]; simpl; [constructor|].
  destruct (f x); by constructor.
Qed.

Lemma List_filter_rev {A} (f : A → bool) (l : list A) :
  List.filter f (rev l) = rev (List.filter f l).
Proof.
  induction l as [|x l IH]; [done|].
  simpl. rewrite List.filter_app, IH. simpl.
  destruct (f x); simpl; [done|]. by rewrite app_nil_r.
Qed.

Lemma last_removelast {A} (l : list A) x :
  last l = Some x → l = removelast l ++ [x].
Proof.
  intros H. destruct (decide (l = [])) as [->|Hne]; [done|].
  rewrite (app_removelast_last x Hne) at 1. f_equal. f_equal.
  clear Hne. induction l as [|y [|z l] IH]; simpl in *; [done|congruence|auto].
Qed.

(** The shape every plan has: [kept] is what the force flags leave of the
    resolver sequence, [removed] comes from [kept] read backwards. *)
Lemma install_actions_shape self arg mode force forceall plan :
  Enpkg.install_actions self arg mode force forceall = Ok plan →
  ∃ req eggs kept,
    Enpkg.req_from_anything self arg = Ok req ∧
    Enpkg.install_sequence self req mode = Ok (Some eggs) ∧
    kept `sublist_of` eggs ∧
    (forceall = true → kept = eggs) ∧
    (forceall = false → force = false → kept = Enpkg.rm self eggs) ∧
    (forceall = false → force = true → ∃ leaf,
        last eggs = Some leaf ∧
        kept = Enpkg.rm self (removelast eggs) ++ [leaf]) ∧
    plan = map (pair "fetch") kept
           ++ (if Enpkg.hook self then []
               else map (pair "remove")
                      (rev (List.filter (fun e => truthy (Enpkg.find self e)) kept)))
           ++ map (pair "install") kept.
Proof.
  unfold Enpkg.install_actions. intros H.
  destruct (Enpkg.req_from_anything self arg) as [req|] eqn:Hreq; [|done].
  simpl in H. destruct (Enpkg._connect self) as [[]|]; [|done].
  simpl in H.
  destruct (Enpkg.install_sequence self req mode) as [[eggs|]|] eqn:Hseq; [|done..].
  simpl in H. exists req, eggs.
  destruct forceall; simpl in H.
  - injection H as <-. exists eggs. repeat split; try done.
    rewrite List_filter_rev. by destruct (Enpkg.hook self).
  - destruct force.
    + destruct (last eggs) as [leaf|] eqn:Hlast; [|done]. simpl in H.
      injection H as <-.
      exists (Enpkg.rm self (removelast eggs) ++ [leaf]).
      repeat split; try done.
      * rewrite (last_removelast eggs leaf Hlast) at 2.
        apply sublist_app; [apply List_filter_sublist|done].
      * intros _ _. by exists leaf.
      * rewrite List_filter_rev. by destruct (Enpkg.hook self).
    + simpl in H. injection H as <-. exists (Enpkg.rm self eggs).
      repeat split; try done.
      * apply List_filter_sublist.
      * rewrite List_filter_rev. by destruct (Enpkg.hook self).
Qed.

Lemma all_before_app l1 l2 (p q : list Enpkg.action) :
  (∀ a, a ∈ p → a.1 ≠ l2) → (∀ a, a ∈ q → a.1 ≠ l1) →
  all_before l1 l2 (p ++ q).
Proof.
  intros Hp Hq i j e1 e2 Hi Hj.
  destruct (decide (i < length p)) as [Hlt|Hge].
  - destruct (decide (j < length p)) as [Hj'|Hj']; [|lia].
    rewrite lookup_app_l in Hj by done.
    apply list_elem_of_lookup_2, Hp in Hj. done.
  - rewrite lookup_app_r in Hi by lia.
    apply list_elem_of_lookup_2, Hq in Hi. done.
Qed.

Lemma label_of_map l (es : list string) (a : Enpkg.action) :
  a ∈ map (pair l) es → a.1 = l.
Proof. intros (e & -> & _)%list_elem_of_fmap. done. Qed.

Lemma egg_of_map l (es : list string) (a : Enpkg.action) :
  a ∈ map (pair l) es → a.2 ∈ es.
Proof. intros (e & -> & He)%list_elem_of_fmap. done. Qed.

(** A plan in three blocks keeps its labels apart. *)
Lemma three_blocks_order (fs rs ins : list string) :
  let plan := map (pair "fetch") fs ++ map (pair "remove") rs
              ++ map (pair "install") ins in
  all_before "fetch" "remove" plan ∧
  all_before "remove" "install" plan ∧
  all_before "fetch" "install" plan.
Proof.
  simpl. split_and!.
  - apply all_before_app.
    + by intros a ->%label_of_map.
    + intros a [->%label_of_map| ->%label_of_map]%elem_of_app; done.
  - rewrite app_assoc. apply all_before_app.
    + intros a [->%label_of_map| ->%label_of_map]%elem_of_app; done.
    + by intros a ->%label_of_map.
  - apply all_before_app.
    + by intros a ->%label_of_map.
    + intros a [->%label_of_map| ->%label_of_map]%elem_of_app; done.
Qed.

Lemma three_blocks_eggs (fs rs ins : list string) :
  let plan := map (pair "fetch") fs ++ map (pair "remove") rs
              ++ map (pair "install") ins in
  eggs_of "fetch" plan = fs ∧ eggs_of "remove" plan = rs ∧
  eggs_of "install" plan = ins.
Proof.
  simpl. rewrite !eggs_of_app, !eggs_of_same.
  rewrite !eggs_of_other by done. by rewrite !app_nil_r.
Qed.

(** C4: in every plan [install_actions] returns, the fetch tuples stand
    before the remove tuples, which stand before the install tuples; the
    installs follow the order of the resolver sequence and the removes the
    reverse of it. *)
Theorem install_actions_order self arg mode force forceall req eggs plan :
  Enpkg.req_from_anything self arg = Ok req →
  Enpkg.install_sequence self req mode = Ok (Some eggs) →
  Enpkg.install_actions self arg mode force forceall = Ok plan →
  all_before "fetch" "remove" plan ∧
  all_before "remove" "install" plan ∧
  all_before "fetch" "install" plan ∧
  plan = map (pair "fetch") (eggs_of "fetch" plan)
         ++ map (pair "remove") (eggs_of "remove" plan)
         ++ map (pair "install") (eggs_of "install" plan) ∧
  eggs_of "install" plan `sublist_of` eggs ∧
  rev (eggs_of "remove" plan) `sublist_of` eggs.
Proof.
  intros Hreq Hseq Hplan.
  destruct (install_actions_shape _ _ _ _ _ _ Hplan)
    as (req' & eggs' & kept & Hreq' & Hseq' & Hsub & _ & _ & _ & ->).
  rewrite Hreq in Hreq'. injection Hreq' as <-.
  rewrite Hseq in Hseq'. injection Hseq' as <-.
  set (rs := if Enpkg.hook self then []
             else map (pair "remove")
               (rev (List.filter (fun e => truthy (Enpkg.find self e)) kept))).
  assert (∃ removed, rs = map (pair "remove") removed ∧
            rev removed `sublist_of` kept) as (removed & Hrs & Hrem).
  { subst rs. destruct (Enpkg.hook self).
    - exists []. split; [done|]. apply sublist_nil_l.
    - eexists. split; [done|]. rewrite rev_involutive.
      apply List_filter_sublist. }
  rewrite Hrs.
  destruct (three_blocks_order kept removed kept) as (O1 & O2 & O3).
  destruct (three_blocks_eggs kept removed kept) as (E1 & E2 & E3).
  simpl in *. rewrite E1, E2, E3. split_and!; try done.
  by etrans.
Qed.

(** The theorem at work: a forced re-install of two installed eggs. *)
Lemma install_actions_order_witness :
  let self := Scenario.enpkg true ["a-1-1.egg"; "b-1-1.egg"]
                ["a-1-1.egg"; "b-1-1.egg"] in
  let plan := [("fetch", "a-1-1.egg"); ("fetch", "b-1-1.egg");
               ("remove", "b-1-1.egg"); ("remove", "a-1-1.egg");
               ("install", "a-1-1.egg"); ("install", "b-1-1.egg")] in
  all_before "fetch" "remove" plan ∧
  all_before "remove" "install" plan ∧
  all_before "fetch" "install" plan ∧
  plan = map (pair "fetch") (eggs_of "fetch" plan)
         ++ map (pair "remove") (eggs_of "remove" plan)
         ++ map (pair "install") (eggs_of "install" plan) ∧
  eggs_of "install" plan `sublist_of` ["a-1-1.egg"; "b-1-1.egg"] ∧
  rev (eggs_of "remove" plan) `sublist_of` ["a-1-1.egg"; "b-1-1.egg"].
Proof.
  intros self plan.
  apply (install_actions_order self (Enpkg.AStr "b") "recur" false true
           (mkReq (Some "b") None None)).
  - vm_compute. reflexivity.
  - reflexivity.
  - vm_compute. reflexivity.
Defined.

Lemma plans_exactly_blocks (kept rs : list string) :
  (∀ e, e ∈ rs → e ∈ kept) →
  plans_exactly
    (map (pair "fetch") kept ++ map (pair "remove") rs
     ++ map (pair "install") kept) kept.
Proof.
  intros Hrs. destruct (three_blocks_eggs kept rs kept) as (E1 & _ & E3).
  split_and!; [done..|].
  intros a [?%egg_of_map|[?%egg_of_map|?%egg_of_map]%elem_of_app]%elem_of_app;
    auto.
Qed.

Lemma removes_within self (kept : list string) e :
  e ∈ List.filter (fun egg => truthy (Enpkg.find self egg)) (rev kept) →
  e ∈ kept.
Proof. rewrite elem_of_List_filter, !list_elem_of_In, <- in_rev. tauto. Qed.

Lemma rm_not_installed self eggs :
  Enpkg.rm self eggs
  = List.filter (fun e => negb (Enpkg.is_installed self e)) eggs.
Proof.
  unfold Enpkg.rm, Enpkg.is_installed. apply filter_ext.
  intros e. by rewrite negb_involutive.
Qed.

Lemma plan_exact self (kept : list string) :
  plans_exactly
    (map (pair "fetch") kept
     ++ (if negb (Enpkg.hook self)
         then map (pair "remove")
                (List.filter (fun egg => truthy (Enpkg.find self egg)) (rev kept))
         else [])
     ++ map (pair "install") kept) kept.
Proof.
  destruct (Enpkg.hook self); simpl.
  - apply (plans_exactly_blocks kept []). by intros e ?%elem_of_nil.
  - apply plans_exactly_blocks. intros e. apply removes_within.
Qed.

(** C3: without force flags every installed egg of the resolver sequence
    is dropped; with [force] the installed ones are dropped except the last
    element, which always stays; with [forceall] nothing is dropped. *)
Theorem install_actions_force self arg mode req eggs :
  Enpkg.req_from_anything self arg = Ok req →
  Enpkg._connect self = Ok tt →
  Enpkg.install_sequence self req mode = Ok (Some eggs) →
  let not_installed := fun e => negb (Enpkg.is_installed self e) in
  (∃ plan, Enpkg.install_actions self arg mode false false = Ok plan ∧
     plans_exactly plan (List.filter not_installed eggs)) ∧
  (∀ front leaf, eggs = front ++ [leaf] →
     ∃ plan, Enpkg.install_actions self arg mode true false = Ok plan ∧
       plans_exactly plan (List.filter not_installed front ++ [leaf])) ∧
  (∀ force,
     ∃ plan, Enpkg.install_actions self arg mode force true = Ok plan ∧
       plans_exactly plan eggs).
Proof.
  intros Hreq Hconn Hseq not_installed. subst not_installed.
  unfold Enpkg.install_actions. rewrite Hreq. simpl.
  rewrite Hconn. simpl. rewrite Hseq. simpl. split_and!.
  - eexists. split; [done|]. rewrite <- rm_not_installed.
    apply plan_exact.
  - intros front leaf ->. rewrite last_snoc, removelast_last. simpl.
    eexists. split; [done|]. rewrite <- rm_not_installed.
    apply plan_exact.
  - intros force. eexists. split; [done|]. apply plan_exact.
Qed.

(** The theorem at work: a dependency and the leaf, both installed. *)
Lemma install_actions_force_witness :
  let self := Scenario.enpkg true ["a-1-1.egg"; "b-1-1.egg"]
                ["a-1-1.egg"; "c-1-1.egg"; "b-1-1.egg"] in
  let arg := Enpkg.AStr "b" in
  let not_installed := fun e => negb (Enpkg.is_installed self e) in
  (∃ plan, Enpkg.install_actions self arg "recur" false false = Ok plan ∧
     plans_exactly plan ["c-1-1.egg"]) ∧
  (∃ plan, Enpkg.install_actions self arg "recur" true false = Ok plan ∧
     plans_exactly plan ["c-1-1.egg"; "b-1-1.egg"]) ∧
  (∃ plan, Enpkg.install_actions self arg "recur" false true = Ok plan ∧
     plans_exactly plan ["a-1-1.egg"; "c-1-1.egg"; "b-1-1.egg"]).
Proof.
  intros self arg not_installed.
  destruct (install_actions_force self arg "recur"
              (mkReq (Some "b") None None)
              ["a-1-1.egg"; "c-1-1.egg"; "b-1-1.egg"])
    as (H1 & H2 & H3).
  - vm_compute. reflexivity.
  - reflexivity.
  - reflexivity.
  - split_and!.
    + exact H1.
    + exact (H2 ["a-1-1.egg"; "c-1-1.egg"] "b-1-1.egg" eq_refl).
    + exact (H3 false).
Defined.

(** With [force] and an empty resolver sequence [eggs[-1]] has nothing to
    read. *)
Lemma install_actions_force_empty self arg mode req :
  Enpkg.req_from_anything self arg = Ok req →
  Enpkg._connect self = Ok tt →
  Enpkg.install_sequence self req mode = Ok (Some []) →
  Enpkg.install_actions self arg mode true false = Raise IndexError.
Proof.
  intros Hreq Hconn Hseq. unfold Enpkg.install_actions.
  rewrite Hreq. simpl. rewrite Hconn. simpl. by rewrite Hseq.
Qed.

(** C1: the upgrade scenario.  Whatever [find] answers and whatever the
    force flags, the plan for the chosen egg foo-1.1.0-1.egg names that egg
    only: it is empty, or fetch and install, or fetch, remove and install of
    foo-1.1.0-1.egg itself.  The installed foo-1.0.0-1.egg is never removed;
    with [find] looking eggs up by key the plan is fetch then install. *)
Theorem install_actions_upgrade_foo :
  (∀ find force forceall,
     let plan := Enpkg.install_actions (Scenario.upgrade_foo find)
                   (Enpkg.AStr "foo") "recur" force forceall in
     plan = Ok [] ∨
     plan = Ok [("fetch", "foo-1.1.0-1.egg"); ("install", "foo-1.1.0-1.egg")] ∨
     plan = Ok [("fetch", "foo-1.1.0-1.egg"); ("remove", "foo-1.1.0-1.egg");
                ("install", "foo-1.1.0-1.egg")]) ∧
  Enpkg.install_actions
    (Scenario.upgrade_foo (Scenario.find_by_key ["foo-1.0.0-1.egg"]))
    (Enpkg.AStr "foo") "recur" false false
  = Ok [("fetch", "foo-1.1.0-1.egg"); ("install", "foo-1.1.0-1.egg")].
Proof.
  split; [|by vm_compute].
  intros find force forceall.
  assert (Enpkg.req_from_anything (Scenario.upgrade_foo find) (Enpkg.AStr "foo")
          = Ok (mkReq (Some "foo") None None)) as Hreq by (by vm_compute).
  unfold Enpkg.install_actions. rewrite Hreq. simpl.
  unfold Enpkg.rm. simpl.
  destruct forceall, force; simpl;
    destruct (find "foo-1.1.0-1.egg") as [d|] eqn:Hfind; simpl;
    rewrite ?Hfind; simpl;
    try destruct (dict_truthy d); simpl; auto.
Qed.

(** ** [create_joined_store] *)

Lemma create_stores_spec isdir urls stores :
  Enpkg.create_stores isdir stores urls
  = match List.find (fun u => negb (accepted_url isdir u)) urls with
    | Some bad => Raise (CannotCreateStore bad)
    | None => Ok (stores ++ map store_for urls)
    end.
Proof.
  revert stores. induction urls as [|url urls IH]; intros stores; simpl.
  - by rewrite app_nil_r.
  - unfold accepted_url, store_for.
    destruct (Enpkg.startswith url "file://"); simpl.
    { rewrite IH. by rewrite <- app_assoc. }
    destruct (Enpkg.startswith url "http://"); simpl.
    { rewrite IH. by rewrite <- app_assoc. }
    destruct (Enpkg.startswith url "https://"); simpl.
    { rewrite IH. by rewrite <- app_assoc. }
    destruct (isdir url); simpl; [|done].
    rewrite IH. by rewrite <- app_assoc.
Qed.

(** C5, as the code has it: [create_joined_store] gives one store per URL,
    in order, when every URL is a [file://] URL, an [http://] or [https://]
    URL or the path of an existing directory, and raises on the first URL of
    none of these forms; [local:] is such a URL unless a directory of that
    name exists. *)
Theorem create_joined_store_spec isdir urls :
  Enpkg.create_joined_store isdir urls
  = match List.find (fun u => negb (accepted_url isdir u)) urls with
    | Some bad => Raise (CannotCreateStore bad)
    | None => Ok (Enpkg.JoinedStore (map store_for urls))
    end
  ∧ accepted_url isdir "local:" = isdir "local:".
Proof.
  split; [|done]. unfold Enpkg.create_joined_store.
  rewrite create_stores_spec. by destruct (List.find _ urls).
Qed.

(** C5 as stated fails: where no directory is called [local:], the sentinel
    is refused. *)
Lemma create_joined_store_local_refused :
  Enpkg.create_joined_store (fun _ => false) ["local:"]
  = Raise (CannotCreateStore "local:").
Proof. reflexivity. Qed.

(** ** [remove_actions] *)

Lemma size_1_singleton (m : gmap string info) :
  size m = 1 → ∃ k d, m = {[k := d]} ∧ map_to_list m = [(k, d)].
Proof.
  intros Hsize. rewrite <- length_map_to_list in Hsize.
  destruct (map_to_list m) as [|[k d] [|? ?]] eqn:Hl; simplify_eq/=.
  exists k, d. split; [|done].
  rewrite <- (list_to_map_to_list m), Hl. simpl. by rewrite insert_empty.
Qed.

Lemma versions_of_ok (ds : list info) :
  Forall has_version_build ds → ∃ vs, Enpkg.versions_of ds = Ok vs.
Proof.
  induction 1 as [|d ds (v & b & Hv & Hb) _ [vs IH]]; simpl; [by eexists|].
  unfold Enpkg.version_build. rewrite Hv, IH.
  destruct Hb as [-> | ->]; simpl; by eexists.
Qed.

(** C6: for a requirement with a name, [remove_actions] fails with the
    not-installed error when the first collection has no matching egg,
    fails with the installed-more-than-once error when it has two or more
    (which the code asserts to happen in hook mode only), and otherwise
    returns the single tuple removing the one matching egg. *)
Theorem remove_actions_cases self req :
  Enpkg.str_truthy (req_name req) = true →
  let index := Enpkg.py_dict (Enpkg.collection0_query self (as_dict req)) in
  (size index = 0 →
     Enpkg.remove_actions self req
     = Raise (EnpkgError (PackageNotInstalled req (Enpkg.prefix0 self)))) ∧
  (2 ≤ size index → Enpkg.hook self = true →
     (∀ k d, index !! k = Some d → has_version_build d) →
     ∃ versions,
       Enpkg.remove_actions self req
       = Raise (EnpkgError (InstalledMoreThanOnce (req_name req) versions))) ∧
  (2 ≤ size index → Enpkg.hook self = false →
     Enpkg.remove_actions self req = Raise AssertionError) ∧
  (size index = 1 →
     ∃ key d, index = {[key := d]} ∧
       Enpkg.remove_actions self req = Ok [("remove", key)]).
Proof.
  intros Hname index. unfold Enpkg.remove_actions. rewrite Hname. simpl.
  fold index. split_and!.
  - intros H0. by rewrite bool_decide_eq_true_2.
  - intros H2 Hhook Hwf.
    rewrite bool_decide_eq_false_2 by lia.
    rewrite bool_decide_eq_true_2 by lia. rewrite Hhook. simpl.
    destruct (versions_of_ok (map snd (map_to_list index))) as [vs ->].
    + apply Forall_forall. intros d (kd & -> & Hkd)%list_elem_of_fmap.
      destruct kd as [k d]. apply elem_of_map_to_list in Hkd. eauto.
    + by eexists.
  - intros H2 Hhook.
    rewrite bool_decide_eq_false_2 by lia.
    rewrite bool_decide_eq_true_2 by lia. by rewrite Hhook.
  - intros H1. destruct (size_1_singleton index H1) as (k & d & Hm & Hl).
    exists k, d. split; [done|].
    rewrite bool_decide_eq_false_2 by lia.
    rewrite bool_decide_eq_false_2 by lia. by rewrite Hl.
Qed.

(** The theorem at work: nothing installed; two versions of foo side by
    side in hook mode; the same two in plain mode; one version. *)
Lemma remove_actions_cases_witness :
  let foo := mkReq (Some "foo") None None in
  let two := ["foo-1.0.0-1.egg"; "foo-1.1.0-1.egg"] in
  Enpkg.remove_actions (Scenario.enpkg true [] []) foo
    = Raise (EnpkgError (PackageNotInstalled foo "/usr/local")) ∧
  (∃ versions, Enpkg.remove_actions (Scenario.enpkg false two []) foo
    = Raise (EnpkgError (InstalledMoreThanOnce (Some "foo") versions))) ∧
  Enpkg.remove_actions (Scenario.enpkg true two []) foo
    = Raise AssertionError ∧
  (∃ key d,
     Enpkg.py_dict (Enpkg.collection0_query
       (Scenario.enpkg true ["foo-1.0.0-1.egg"] []) (as_dict foo))
     = {[key := d]} ∧
     Enpkg.remove_actions (Scenario.enpkg true ["foo-1.0.0-1.egg"] []) foo
     = Ok [("remove", key)]).
Proof.
  intros foo two. split_and!.
  - apply (remove_actions_cases (Scenario.enpkg true [] []) foo eq_refl).
    reflexivity.
  - apply (remove_actions_cases (Scenario.enpkg false two []) foo eq_refl).
    + vm_compute. lia.
    + reflexivity.
    + intros k d Hkd. unfold Enpkg.py_dict in Hkd. simpl in Hkd.
      apply lookup_insert_Some in Hkd as [[_ <-]|[_ Hkd]];
        [|apply lookup_insert_Some in Hkd as [[_ <-]|[_ Hkd]]; [|done]];
        eexists _, _; (split; [|left]); vm_compute; reflexivity.
  - apply (remove_actions_cases (Scenario.enpkg true two []) foo eq_refl).
    + vm_compute. lia.
    + reflexivity.
  - apply (remove_actions_cases
             (Scenario.enpkg true ["foo-1.0.0-1.egg"] []) foo eq_refl).
    reflexivity.
Defined.

(** ** [execute_actions] *)

Section ExecutorFacts.
Context {W : Type}.
Variable fetch : string → W → W * option exn.
Variable ec_remove : string → W → W * option exn.
Variable get_metadata : string → W → result info.
Variable ec_install : string → info → W → W * option exn.
Variable progress : nat → W → W.

Let run := Enpkg.run_actions fetch ec_remove get_metadata ec_install progress.
Let step := Enpkg.run_action fetch ec_remove get_metadata ec_install.

(** Running a plan in two pieces. *)
Lemma run_actions_app n pre post w :
  run n (pre ++ post) w
  = match run n pre w with
    | (w1, None) => run (n + length pre) post w1
    | (w1, Some e) => (w1, Some e)
    end.
Proof.
  revert n w. induction pre as [|a pre IH]; intros n w; simpl.
  - by rewrite Nat.add_0_r.
  - unfold run in *. simpl.
    destruct (Enpkg.run_action _ _ _ _ a w) as [w' [e|]]; [done|].
    rewrite IH. by rewrite Nat.add_succ_r.
Qed.

(** What happens at the first action that follows a clean prefix. *)
Lemma run_actions_at n pre a post w w1 :
  run n pre w = (w1, None) →
  run n (pre ++ a :: post) w
  = match step a w1 with
    | (w2, None) => run (S (n + length pre)) post (progress (n + length pre) w2)
    | (w2, Some e) => (w2, Some e)
    end.
Proof. intros Hpre. rewrite run_actions_app, Hpre. done. Qed.

Lemma run_actions_unknown n actions label egg w :
  (label, egg) ∈ actions →
  label ∉ ["fetch"; "remove"; "install"] →
  ∃ w' e, run n actions w = (w', Some e).
Proof.
  intros Hin Hlabel. revert n w.
  induction actions as [|a actions IH]; intros n w.
  { by apply elem_of_nil in Hin. }
  unfold run in *. simpl.
  destruct (Enpkg.run_action _ _ _ _ a w) as [w' [e|]] eqn:Hstep;
    [by eauto|].
  apply elem_of_cons in Hin as [<-|Hin]; [|by apply IH].
  exfalso. unfold Enpkg.run_action in Hstep.
  destruct (String.eqb_spec label "fetch") as [->|_]; [set_solver|].
  destruct (String.eqb_spec label "remove") as [->|_]; [set_solver|].
  destruct (String.eqb_spec label "install") as [->|_]; [set_solver|].
  done.
Qed.
End ExecutorFacts.

(** C7: in a run of [execute_actions] an [EnpkgError] of a remove is
    swallowed and the rest of the plan runs on, to the end of the plan or to
    the error of a later action; an error of a fetch or of an install (of
    its metadata lookup or of the installation) ends the run with that
    error, whatever actions remain; the error of the loop reaches the
    caller, and a loop without one ends the call without one; a plan that
    holds an action of another label raises. *)
Theorem execute_actions_errors {W : Type}
    (fetch ec_remove : string → W → W * option exn)
    (get_metadata : string → W → result info)
    (ec_install : string → info → W → W * option exn)
    (begin_super : list Enpkg.action → W → W) (progress : nat → W → W)
    (progress_exit end_super : W → W) :
  let run := Enpkg.run_actions fetch ec_remove get_metadata ec_install progress in
  let exec := Enpkg.execute_actions fetch ec_remove get_metadata ec_install
                begin_super progress progress_exit end_super in
  (∀ n pre egg post w w1 w2 m,
     run n pre w = (w1, None) →
     ec_remove egg w1 = (w2, Some (EnpkgError m)) →
     run n (pre ++ ("remove", egg) :: post) w
     = run (S (n + length pre)) post (progress (n + length pre) w2)) ∧
  (∀ n pre egg post w w1 w2 e,
     run n pre w = (w1, None) →
     fetch egg w1 = (w2, Some e) →
     run n (pre ++ ("fetch", egg) :: post) w = (w2, Some e)) ∧
  (∀ n pre egg post w w1 e,
     run n pre w = (w1, None) →
     get_metadata egg w1 = Raise e →
     run n (pre ++ ("install", egg) :: post) w = (w1, Some e)) ∧
  (∀ n pre egg post w w1 w2 i e,
     run n pre w = (w1, None) →
     get_metadata egg w1 = Ok i →
     ec_install egg i w1 = (w2, Some e) →
     run n (pre ++ ("install", egg) :: post) w = (w2, Some e)) ∧
  (∀ actions w w' e,
     run 0 actions (begin_super actions w) = (w', Some e) →
     exec actions w = (progress_exit w', Some e)) ∧
  (∀ actions label egg w,
     (label, egg) ∈ actions →
     label ∉ ["fetch"; "remove"; "install"] →
     ∃ w' e, exec actions w = (w', Some e)) ∧
  (∀ actions w w',
     actions ≠ [] →
     run 0 actions (begin_super actions w) = (w', None) →
     exec actions w = (end_super (progress_exit w'), None)) ∧
  (∀ pre egg post w w1 w2 m,
     run 0 pre (begin_super (pre ++ ("remove", egg) :: post) w) = (w1, None) →
     ec_remove egg w1 = (w2, Some (EnpkgError m)) →
     exec (pre ++ ("remove", egg) :: post) w
     = match run (S (length pre)) post (progress (length pre) w2) with
       | (w', Some e) => (progress_exit w', Some e)
       | (w', None) => (end_super (progress_exit w'), None)
       end) ∧
  (∀ pre egg post w w1 w2 e,
     run 0 pre (begin_super (pre ++ ("fetch", egg) :: post) w) = (w1, None) →
     fetch egg w1 = (w2, Some e) →
     exec (pre ++ ("fetch", egg) :: post) w = (progress_exit w2, Some e)) ∧
  (∀ pre egg post w w1 e,
     run 0 pre (begin_super (pre ++ ("install", egg) :: post) w) = (w1, None) →
     get_metadata egg w1 = Raise e →
     exec (pre ++ ("install", egg) :: post) w = (progress_exit w1, Some e)) ∧
  (∀ pre egg post w w1 w2 i e,
     run 0 pre (begin_super (pre ++ ("install", egg) :: post) w) = (w1, None) →
     get_metadata egg w1 = Ok i →
     ec_install egg i w1 = (w2, Some e) →
     exec (pre ++ ("install", egg) :: post) w = (progress_exit w2, Some e)).
Proof.
  intros run exec.
  assert (∀ n pre egg post w w1 w2 m,
            run n pre w = (w1, None) →
            ec_remove egg w1 = (w2, Some (EnpkgError m)) →
            run n (pre ++ ("remove", egg) :: post) w
            = run (S (n + length pre)) post (progress (n + length pre) w2))
    as Hremove.
  { intros n pre egg post w w1 w2 m Hpre Hrm. unfold run.
    rewrite (run_actions_at _ _ _ _ _ _ _ _ _ _ _ Hpre). simpl.
    by rewrite Hrm. }
  assert (∀ n pre egg post w w1 w2 e,
            run n pre w = (w1, None) →
            fetch egg w1 = (w2, Some e) →
            run n (pre ++ ("fetch", egg) :: post) w = (w2, Some e)) as Hfetch.
  { intros n pre egg post w w1 w2 e Hpre Hf. unfold run.
    rewrite (run_actions_at _ _ _ _ _ _ _ _ _ _ _ Hpre). simpl.
    by rewrite Hf. }
  assert (∀ n pre egg post w w1 e,
            run n pre w = (w1, None) →
            get_metadata egg w1 = Raise e →
            run n (pre ++ ("install", egg) :: post) w = (w1, Some e)) as Hmeta.
  { intros n pre egg post w w1 e Hpre Hm. unfold run.
    rewrite (run_actions_at _ _ _ _ _ _ _ _ _ _ _ Hpre). simpl.
    by rewrite Hm. }
  assert (∀ n pre egg post w w1 w2 i e,
            run n pre w = (w1, None) →
            get_metadata egg w1 = Ok i →
            ec_install egg i w1 = (w2, Some e) →
            run n (pre ++ ("install", egg) :: post) w = (w2, Some e)) as Hinst.
  { intros n pre egg post w w1 w2 i e Hpre Hm Hi. unfold run.
    rewrite (run_actions_at _ _ _ _ _ _ _ _ _ _ _ Hpre). simpl.
    by rewrite Hm, Hi. }
  assert (∀ actions w,
            actions ≠ [] →
            exec actions w
            = match run 0 actions (begin_super actions w) with
              | (w', Some e) => (progress_exit w', Some e)
              | (w', None) => (end_super (progress_exit w'), None)
              end) as Hexec.
  { intros actions w Hne. unfold exec, Enpkg.execute_actions.
    by destruct actions. }
  assert (∀ (pre : list Enpkg.action) a post, pre ++ a :: post ≠ [])
    as Hcons by (by intros [|? ?] ? ?).
  split_and!; [done..| | | | | | |].
  - intros actions w w' e Hrun. destruct actions as [|a actions]; [done|].
    by rewrite Hexec, Hrun.
  - intros actions label egg w Hin Hlabel.
    destruct (run_actions_unknown fetch ec_remove get_metadata ec_install
                progress 0 actions label egg (begin_super actions w) Hin Hlabel)
      as (w' & e & Hrun).
    destruct actions as [|a actions]; [by apply elem_of_nil in Hin|].
    rewrite Hexec by done. fold run in Hrun. rewrite Hrun. eauto.
  - intros actions w w' Hne Hrun. by rewrite Hexec, Hrun.
  - intros pre egg post w w1 w2 m Hpre Hrm.
    rewrite Hexec by done. by rewrite (Hremove _ _ _ _ _ _ _ _ Hpre Hrm).
  - intros pre egg post w w1 w2 e Hpre Hf.
    rewrite Hexec by done. by rewrite (Hfetch _ _ _ _ _ _ _ _ Hpre Hf).
  - intros pre egg post w w1 e Hpre Hm.
    rewrite Hexec by done. by rewrite (Hmeta _ _ _ _ _ _ _ Hpre Hm).
  - intros pre egg post w w1 w2 i e Hpre Hm Hi.
    rewrite Hexec by done. by rewrite (Hinst _ _ _ _ _ _ _ _ _ Hpre Hm Hi).
Qed.

(** The theorem at work in the logged world: a remove of an absent egg is
    passed over and the fetch after it runs, in the loop and in the call; a
    failing fetch, a failing metadata lookup and a failing installation end
    the run; an action labelled [remote] raises. *)
Lemma execute_actions_errors_witness :
  ExecScenario.run 0 [("remove", "a-1-1.egg"); ("fetch", "b-1-1.egg")] []
    = ExecScenario.run 1 [("fetch", "b-1-1.egg")] [] ∧
  ExecScenario.run 0 [("fetch", "gone-1-1.egg"); ("install", "b-1-1.egg")] []
    = ([], Some (Foreign "KeyError" "gone-1-1.egg")) ∧
  ExecScenario.run 0 [("install", "gone-1-1.egg"); ("fetch", "b-1-1.egg")] []
    = ([], Some (KeyError "gone-1-1.egg")) ∧
  ExecScenario.run 0 [("install", "broken-1-1.egg"); ("fetch", "b-1-1.egg")] []
    = ([], Some (Foreign "IOError" "broken-1-1.egg")) ∧
  ExecScenario.execute_actions [("fetch", "gone-1-1.egg")] []
    = ([], Some (Foreign "KeyError" "gone-1-1.egg")) ∧
  (∃ w' e, ExecScenario.execute_actions
             [("fetch", "b-1-1.egg"); ("remote", "b-1-1.egg")] []
           = (w', Some e)) ∧
  ExecScenario.execute_actions
    [("remove", "a-1-1.egg"); ("fetch", "b-1-1.egg")] []
    = ([("fetched", "b-1-1.egg")], None) ∧
  ExecScenario.execute_actions
    [("remove", "a-1-1.egg"); ("install", "broken-1-1.egg");
     ("fetch", "b-1-1.egg")] []
    = ([], Some (Foreign "IOError" "broken-1-1.egg")).
Proof.
  destruct (execute_actions_errors ExecScenario.fetch ExecScenario.ec_remove
              ExecScenario.get_metadata ExecScenario.ec_install
              (fun _ w => w) (fun _ w => w) (fun w => w) (fun w => w))
    as (Hrm & Hfetch & Hmeta & Hinst & Hcaller & Hlabel & Hend & Hrm_call
        & _ & _ & Hinst_call).
  split_and!.
  - exact (Hrm 0 [] "a-1-1.egg" [("fetch", "b-1-1.egg")] [] [] []
             (EnpkgOther "not installed") eq_refl eq_refl).
  - exact (Hfetch 0 [] "gone-1-1.egg" [("install", "b-1-1.egg")] [] [] []
             _ eq_refl eq_refl).
  - exact (Hmeta 0 [] "gone-1-1.egg" [("fetch", "b-1-1.egg")] [] []
             _ eq_refl eq_refl).
  - exact (Hinst 0 [] "broken-1-1.egg" [("fetch", "b-1-1.egg")] [] [] []
             _ _ eq_refl eq_refl eq_refl).
  - exact (Hcaller [("fetch", "gone-1-1.egg")] [] [] _ eq_refl).
  - apply (Hlabel _ "remote" "b-1-1.egg"); [set_solver|].
    intros Hin. repeat (apply elem_of_cons in Hin as [Hin|Hin]; [done|]).
    by apply elem_of_nil in Hin.
  - exact (Hrm_call [] "a-1-1.egg" [("fetch", "b-1-1.egg")] [] [] []
             (EnpkgOther "not installed") eq_refl eq_refl).
  - exact (Hinst_call [("remove", "a-1-1.egg")] "broken-1-1.egg"
             [("fetch", "b-1-1.egg")] [] [] [] _ _ eq_refl eq_refl eq_refl).
Defined.

(** ** Proxy set-up *)

(** C10: with [PROXY_HOST] set to the empty string and no proxy string
    given, [get_proxy_info] answers a host that is the empty string, not
    [None]; [get_proxystr] on it reads its unbound local; and so
    [setup_proxy] ends in that [UnboundLocalError]. *)
Theorem setup_proxy_empty_host environ _parse_proxy splitport getpass
    proxystr installed :
  environ !! "PROXY_HOST" = Some "" →
  ProxyUtil.missing proxystr = true →
  (∃ info,
     ProxyUtil.get_proxy_info environ _parse_proxy splitport getpass proxystr
       = Ok info ∧
     ProxyUtil.get info "host" = ProxyUtil.PStr "" ∧
     ProxyUtil.get_proxystr info = Raise (UnboundLocalError "proxystr")) ∧
  ProxyUtil.setup_proxy environ _parse_proxy splitport getpass proxystr installed
    = Raise (UnboundLocalError "proxystr").
Proof.
  intros Hhost Hmissing.
  assert (∃ info,
     ProxyUtil.get_proxy_info environ _parse_proxy splitport getpass proxystr
       = Ok info ∧
     ProxyUtil.get info "host" = ProxyUtil.PStr "") as (info & Hinfo & Hget).
  { unfold ProxyUtil.get_proxy_info. rewrite Hmissing, Hhost. simpl.
    unfold ProxyUtil.get at 1. rewrite lookup_insert_ne by done.
    rewrite lookup_insert_ne by done. rewrite lookup_insert_eq. simpl.
    destruct (environ !! "PROXY_USER") as [user|]; simpl.
    - destruct (String.eqb user ""); simpl.
      + eexists. split; [done|]. unfold ProxyUtil.get.
        by rewrite lookup_insert_eq.
      + unfold ProxyUtil.get at 1. do 3 rewrite lookup_insert_ne by done.
        rewrite lookup_insert_eq.
        destruct (environ !! "PROXY_PASS") as [pass|]; simpl.
        * destruct (String.eqb pass ""); simpl;
            (eexists; split; [done|]); unfold ProxyUtil.get.
          -- rewrite lookup_insert_ne by done. by rewrite lookup_insert_eq.
          -- by rewrite lookup_insert_eq.
        * eexists. split; [done|]. unfold ProxyUtil.get.
          rewrite lookup_insert_ne by done. by rewrite lookup_insert_eq.
    - eexists. split; [done|]. unfold ProxyUtil.get.
      by rewrite lookup_insert_eq. }
  assert (ProxyUtil.get_proxystr info = Raise (UnboundLocalError "proxystr"))
    as Hstr.
  { unfold ProxyUtil.get_proxystr. by rewrite Hget. }
  split; [by exists info|].
  unfold ProxyUtil.setup_proxy. rewrite Hinfo. simpl. rewrite Hget. simpl.
  unfold ProxyUtil.install_proxy_handlers. by rewrite Hstr.
Qed.

(** The theorem at work: the call [setup_proxy()] with its default
    argument, in an environment where [PROXY_HOST] is empty. *)
Lemma setup_proxy_empty_host_witness :
  ProxyUtil.setup_proxy ProxyScenario.environ ProxyScenario._parse_proxy
    ProxyScenario.splitport "secret" (Some "") None
  = Raise (UnboundLocalError "proxystr").
Proof.
  apply (setup_proxy_empty_host ProxyScenario.environ
           ProxyScenario._parse_proxy ProxyScenario.splitport "secret"
           (Some "") None).
  - vm_compute. reflexivity.
  - reflexivity.
Defined.

(** ** [parse_data] *)

Lemma bind_Ok {A B} (r : result A) (k : A → result B) b :
  bind r k = Ok b → ∃ a, r = Ok a ∧ k a = Ok b.
Proof. destruct r as [a|e]; simpl; [eauto|done]. Qed.

Lemma getitem_Ok (d : info) k v :
  Metadata.getitem d k = Ok v → d !! k = Some v.
Proof. unfold Metadata.getitem. destruct (d !! k); [by intros [= ->]|done]. Qed.

Lemma copy_vars_lookup spec names res0 res :
  Metadata.copy_vars spec names res0 = Ok res →
  (∀ k, k ∈ names → is_Some (spec !! k)) ∧
  ∀ k, res !! k = if bool_decide (k ∈ names) then spec !! k else res0 !! k.
Proof.
  revert res0. induction names as [|name names IH]; intros res0 H; simpl in H.
  - injection H as <-. split; [by intros k ?%elem_of_nil|].
    intros k. by rewrite bool_decide_eq_false_2 by apply not_elem_of_nil.
  - unfold Metadata.getitem in H.
    destruct (spec !! name) as [v|] eqn:Hname; [|done]. simpl in H.
    destruct (IH _ H) as [Hsome Hres]. split.
    + intros k [->|Hk]%elem_of_cons; [by eexists|by apply Hsome].
    + intros k. rewrite Hres.
      destruct (decide (k ∈ names)) as [Hk|Hk].
      * rewrite !bool_decide_eq_true_2; [done|by right|done].
      * rewrite (bool_decide_eq_false_2 (k ∈ names)) by done.
        destruct (decide (k = name)) as [->|Hne].
        -- rewrite bool_decide_eq_true_2 by left.
           by rewrite lookup_insert_eq.
        -- rewrite bool_decide_eq_false_2 by (by intros [?|?]%elem_of_cons).
           by rewrite lookup_insert_ne.
Qed.

(** C9: when [parse_data(data, index=True)] succeeds, the section has
    bound [md5] to a string of 32 characters and [size] to an int, and the
    result holds exactly the eleven keys of the index format, each with the
    value the section gave it; any other name the section binds is not in
    the result. *)
Theorem parse_data_index py_exec data res :
  Metadata.parse_data py_exec data true = Ok res →
  ∃ spec,
    py_exec (Metadata.remove_cr data) = Ok spec ∧
    (∃ s, spec !! "md5" = Some (VStr s) ∧ String.length s = 32) ∧
    (∃ z, spec !! "size" = Some (VInt z)) ∧
    dom res = list_to_set
      ["metadata_version"; "name"; "version"; "build"; "arch"; "platform";
       "osdist"; "python"; "packages"; "md5"; "size"] ∧
    (∀ k, k ∈ dom res → res !! k = spec !! k) ∧
    (∀ k, k ∉ dom res → res !! k = None).
Proof.
  unfold Metadata.parse_data. intros H.
  apply bind_Ok in H as (spec & Hspec & H). exists spec. split; [done|].
  apply bind_Ok in H as (mv & _ & H).
  destruct (Metadata.ge_str mv "1.1"); cbn [negb] in H; [|done].
  apply bind_Ok in H as ([] & Hcheck & H).
  apply bind_Ok in Hcheck as (md5 & Hmd5 & Hcheck).
  destruct (Metadata.is_str_of_32 md5) eqn:H32; cbn [negb] in Hcheck; [|done].
  apply bind_Ok in Hcheck as (size & Hsize & Hcheck).
  destruct (Metadata.is_int size) eqn:Hint; cbn [negb] in Hcheck; [|done].
  apply getitem_Ok in Hmd5, Hsize.
  destruct (copy_vars_lookup _ _ _ _ H) as [Hsome Hres].
  assert (dom res = list_to_set (Metadata.var_names true)) as Hdom.
  { apply set_eq. intros k. rewrite elem_of_dom, Hres, elem_of_list_to_set.
    destruct (decide (k ∈ Metadata.var_names true)) as [Hk|Hk].
    - rewrite bool_decide_eq_true_2 by done. split; [done|]. auto.
    - rewrite bool_decide_eq_false_2 by done. rewrite lookup_empty.
      split; [by intros [? ?]|done]. }
  split_and!.
  - destruct md5 as [| | |s|]; try done. exists s. split; [done|].
    by apply Nat.eqb_eq.
  - destruct size as [|z| | |]; try done. by exists z.
  - exact Hdom.
  - intros k Hk. rewrite Hdom, elem_of_list_to_set in Hk.
    by rewrite Hres, bool_decide_eq_true_2.
  - intros k Hk. by apply not_elem_of_dom.
Qed.

(** The theorem at work: a section that also assigns [comment]. *)
Lemma parse_data_index_witness :
  ∃ spec,
    MetadataScenario.py_exec (Metadata.remove_cr "") = Ok spec ∧
    spec !! "comment" = Some (VStr "ignored") ∧
    ("comment" ∉ dom MetadataScenario.record) ∧
    MetadataScenario.record !! "comment" = None.
Proof.
  assert (Metadata.parse_data MetadataScenario.py_exec "" true
          = Ok MetadataScenario.record) as Hres by (vm_compute; reflexivity).
  destruct (parse_data_index MetadataScenario.py_exec ""
              MetadataScenario.record Hres)
    as (spec & Hspec & _ & _ & Hdom & _ & Hout).
  exists spec. split; [exact Hspec|].
  injection Hspec as <-.
  assert ("comment" ∉ dom MetadataScenario.record) as Hnot.
  { rewrite Hdom. intros Hin. apply elem_of_list_to_set in Hin.
    repeat (apply elem_of_cons in Hin as [Hin|Hin]; [discriminate Hin|]).
    by apply elem_of_nil in Hin. }
  split; [reflexivity|]. split; [exact Hnot|]. exact (Hout _ Hnot).
Defined.

(** ** [revert] *)

Section RevertFacts.
Context {W : Type}.
Variable remove_egg : string → W → W * option exn.
Variable isfile : string → W → bool.
Variable join : string → string → string.
Variable egg_dir : string.
Variable dry_run : bool.
Variable get_dist : string → result (option string).
Variable fetch_dist : string → string → bool → W → W * option exn.
Variable egg_install : string → W → W * option exn.

Local Abbreviation do_remove := (Main.do_remove remove_egg).
Local Abbreviation do_fetch :=
  (Main.do_fetch egg_dir dry_run get_dist fetch_dist).
Local Abbreviation do_install :=
  (Main.do_install isfile join egg_dir egg_install).
Local Abbreviation fetch_step :=
  (Main.fetch_step egg_dir dry_run get_dist fetch_dist).
Local Abbreviation install_step :=
  (Main.install_step isfile join egg_dir egg_install).




End RevertFacts.






(** ** Egg file names *)

Lemma append_cons c (s t : string) : String c s +:+ t = String c (s +:+ t).
Proof. reflexivity. Qed.

Lemma append_nil_l (s : string) : "" +:+ s = s.
Proof. reflexivity. Qed.

Lemma append_nil_r (s : string) : s +:+ "" = s.
Proof. induction s as [|c s IH]; [done|]. by rewrite append_cons, IH. Qed.

Lemma append_assoc (s t u : string) : (s +:+ t) +:+ u = s +:+ (t +:+ u).
Proof. induction s as [|c s IH]; [done|]. by rewrite !append_cons, IH. Qed.

Lemma hyphen_free_forall (s : string) :
  DistNaming.hyphen_free s ↔ string_forall DistNaming.not_hyphen s = true.
Proof.
  unfold DistNaming.hyphen_free. induction s as [|c s IH]; simpl.
  - split; [done|]. by intros _ c ?%elem_of_nil.
  - rewrite andb_true_iff, <- IH. unfold DistNaming.not_hyphen.
    rewrite negb_true_iff, Ascii.eqb_neq. split.
    + intros H. split; [apply H; by left|]. intros c' Hc'. apply H. by right.
    + intros [Hc Hs] c' [->|Hc']%elem_of_cons; auto.
Qed.

(** What a successful [cls+] took: a non-empty prefix inside the class,
    handed to the continuation with the rest. *)
Lemma re_plus_sound {R} cls acc (k : string → string → option R) s r :
  DistNaming.re_plus cls acc k s = Some r →
  ∃ p rest, s = p +:+ rest ∧ p ≠ "" ∧ string_forall cls p = true ∧
            k (acc +:+ p) rest = Some r.
Proof.
  revert acc. induction s as [|c s IH]; intros acc H; simpl in H; [done|].
  destruct (cls c) eqn:Hc; [|done].
  destruct (DistNaming.re_plus cls (acc +:+ String c "") k s) as [r'|] eqn:Hmore.
  - injection H as ->. destruct (IH _ Hmore) as (p & rest & -> & _ & Hp & Hk).
    exists (String c p), rest. simpl. rewrite Hc, Hp.
    rewrite append_assoc, append_cons, append_nil_l in Hk. done.
  - exists (String c ""), s. simpl. by rewrite Hc.
Qed.

(** A greedy [cls+] takes the whole run when the continuation accepts it. *)
Lemma re_plus_greedy {R} cls acc (k : string → string → option R) p rest r :
  p ≠ "" → string_forall cls p = true → stops cls rest = true →
  k (acc +:+ p) rest = Some r →
  DistNaming.re_plus cls acc k (p +:+ rest) = Some r.
Proof.
  revert acc. induction p as [|c p IH]; intros acc Hne Hp Hstop Hk; [done|].
  rewrite append_cons. simpl in *.
  apply andb_true_iff in Hp as [Hc Hp]. rewrite Hc.
  destruct p as [|c' p].
  - rewrite append_nil_l. destruct rest as [|c' rest]; simpl.
    + done.
    + simpl in Hstop. apply negb_true_iff in Hstop. by rewrite Hstop.
  - rewrite (IH (acc +:+ String c "")); [done|done|done|done|].
    by rewrite append_assoc, append_cons, append_nil_l.
Qed.

Lemma re_char_inv {R} c (k : string → option R) s r :
  DistNaming.re_char c k s = Some r → ∃ s', s = String c s' ∧ k s' = Some r.
Proof.
  destruct s as [|c' s]; simpl; [done|].
  destruct (Ascii.eqb_spec c' c) as [->|]; [eauto|done].
Qed.

Lemma string_of_uint_digits u :
  string_forall DistNaming.is_digit (NilEmpty.string_of_uint u) = true.
Proof. induction u; simpl; by rewrite ?IHu. Qed.

Lemma py_int_nonneg s : (0 ≤ DistNaming.py_int s)%Z.
Proof.
  unfold DistNaming.py_int. destruct (NilEmpty.uint_of_string s); [|done].
  unfold Z.of_uint. apply N2Z.is_nonneg.
Qed.

(** ['%d'] of a build number: its decimal digits, which [int] reads back. *)
Lemma fmt_d_digits b :
  (0 ≤ b)%Z →
  DistNaming.fmt_d b ≠ "" ∧
  string_forall DistNaming.is_digit (DistNaming.fmt_d b) = true ∧
  DistNaming.py_int (DistNaming.fmt_d b) = b.
Proof.
  intros Hb. unfold DistNaming.fmt_d, DistNaming.py_int.
  destruct b as [|p|p]; [by vm_compute| |lia].
  simpl. pose proof (DecimalPos.Unsigned.to_uint_nonnil p) as Hnil.
  pose proof (DecimalPos.Unsigned.of_to p) as Hof.
  destruct (Pos.to_uint p) as [|u|u|u|u|u|u|u|u|u|u] eqn:Hu; [done|..];
    (split; [done|]);
    (split; [rewrite <- Hu at 1; unfold NilZero.string_of_uint;
             rewrite Hu; apply (string_of_uint_digits (_ u))|]);
    unfold NilZero.string_of_uint; rewrite NilEmpty.usu;
    unfold Z.of_uint; by rewrite Hof.
Qed.

Lemma re_any_inv {R} (k : string → option R) s r :
  DistNaming.re_any k s = Some r →
  ∃ c s', s = String c s' ∧ c ≠ DistNaming.newline ∧ k s' = Some r.
Proof.
  destruct s as [|c s]; simpl; [done|].
  destruct (Ascii.eqb_spec c DistNaming.newline) as [->|Hc]; [done|eauto].
Qed.

Lemma re_eol_inv {R} (k : option R) s r :
  DistNaming.re_eol k s = Some r →
  k = Some r ∧ (s = "" ∨ s = String DistNaming.newline "").
Proof.
  destruct s as [|c [|c' s]]; simpl; [by auto| |done].
  destruct (Ascii.eqb_spec c DistNaming.newline) as [->|Hc]; [by auto|done].
Qed.

(** What [egg_pat] accepts: name, hyphen, version, hyphen, digits, any one
    character but a newline, the letters egg, and at most a final newline. *)
Lemma egg_pat_inv e g1 g2 g3 :
  DistNaming.egg_pat e = Some (g1, g2, g3) →
  ∃ c tail,
    e = g1 +:+ "-" +:+ g2 +:+ "-" +:+ g3 +:+ String c ("egg" +:+ tail) ∧
    g1 ≠ "" ∧ string_forall DistNaming.not_hyphen g1 = true ∧
    g2 ≠ "" ∧ string_forall DistNaming.not_hyphen g2 = true ∧
    g3 ≠ "" ∧ string_forall DistNaming.is_digit g3 = true ∧
    c ≠ DistNaming.newline ∧
    (tail = "" ∨ tail = String DistNaming.newline "").
Proof.
  unfold DistNaming.egg_pat. intros H.
  apply re_plus_sound in H as (p1 & r1 & -> & Hn1 & Hc1 & H).
  cbn beta in H. rewrite append_nil_l in H.
  apply re_char_inv in H as (r1' & -> & H).
  apply re_plus_sound in H as (p2 & r2 & -> & Hn2 & Hc2 & H).
  cbn beta in H. rewrite append_nil_l in H.
  apply re_char_inv in H as (r2' & -> & H).
  apply re_plus_sound in H as (p3 & r3 & -> & Hn3 & Hc3 & H).
  cbn beta in H. rewrite append_nil_l in H.
  apply re_any_inv in H as (c & r4 & -> & Hc & H).
  apply re_char_inv in H as (r5 & -> & H).
  apply re_char_inv in H as (r6 & -> & H).
  apply re_char_inv in H as (r7 & -> & H).
  apply re_eol_inv in H as [[= <- <- <-] Htail].
  exists c, r7. split_and!; done.
Qed.

Lemma egg_pat_canonical n v b :
  n ≠ "" → v ≠ "" → DistNaming.hyphen_free n → DistNaming.hyphen_free v →
  (0 ≤ b)%Z →
  DistNaming.egg_pat (DistNaming.format_eggname (n, v, b))
  = Some (n, v, DistNaming.fmt_d b).
Proof.
  intros Hn Hv Hfn Hfv Hb.
  destruct (fmt_d_digits b Hb) as (Hd & Hdigits & _).
  apply hyphen_free_forall in Hfn, Hfv.
  unfold DistNaming.egg_pat, DistNaming.format_eggname.
  apply re_plus_greedy; [done|done|reflexivity|].
  cbn beta. rewrite append_nil_l.
  change ("-" +:+ ?x) with (String "-" x). cbn [DistNaming.re_char Ascii.eqb Bool.eqb].
  apply re_plus_greedy; [done|done|reflexivity|].
  cbn beta. rewrite append_nil_l.
  change ("-" +:+ ?x) with (String "-" x). cbn [DistNaming.re_char Ascii.eqb Bool.eqb].
  apply re_plus_greedy; [done|done|reflexivity|].
  reflexivity.
Qed.

(** C2, as the code has it: [split_eggname] of a name [is_valid_eggname]
    accepts gives a non-empty name and version without hyphens and a build
    that is not negative; a file name in canonical form, made by the format
    from such a name and version and a build that is not negative, is
    accepted and splits into what it was made from, so that formatting the
    split gives the file name back. *)
Theorem split_eggname_round_trip :
  (∀ e, DistNaming.is_valid_eggname e = true →
     ∃ n v b, DistNaming.split_eggname e = Ok (n, v, b) ∧
       n ≠ "" ∧ v ≠ "" ∧
       DistNaming.hyphen_free n ∧ DistNaming.hyphen_free v ∧ (0 ≤ b)%Z) ∧
  (∀ n v b,
     n ≠ "" → v ≠ "" → DistNaming.hyphen_free n → DistNaming.hyphen_free v →
     (0 ≤ b)%Z →
     let e := DistNaming.format_eggname (n, v, b) in
     DistNaming.is_valid_eggname e = true ∧
     DistNaming.split_eggname e = Ok (n, v, b) ∧
     bind (DistNaming.split_eggname e)
       (fun nvb => Ok (DistNaming.format_eggname nvb)) = Ok e).
Proof.
  split.
  - intros e Hvalid. unfold DistNaming.is_valid_eggname in Hvalid.
    apply bool_decide_eq_true in Hvalid as [[[g1 g2] g3] Hpat].
    destruct (egg_pat_inv _ _ _ _ Hpat)
      as (c & tail & _ & Hn1 & Hc1 & Hn2 & Hc2 & _).
    exists g1, g2, (DistNaming.py_int g3).
    unfold DistNaming.split_eggname. rewrite Hpat.
    split_and!; [done|done|done|by apply hyphen_free_forall..|].
    apply py_int_nonneg.
  - intros n v b Hn Hv Hfn Hfv Hb e.
    pose proof (egg_pat_canonical n v b Hn Hv Hfn Hfv Hb) as Hpat.
    destruct (fmt_d_digits b Hb) as (_ & _ & Hint).
    assert (DistNaming.split_eggname e = Ok (n, v, b)) as Hsplit.
    { unfold DistNaming.split_eggname. subst e. by rewrite Hpat, Hint. }
    split_and!; [|done|by rewrite Hsplit].
    unfold DistNaming.is_valid_eggname. apply bool_decide_eq_true.
    subst e. rewrite Hpat. by eexists.
Qed.

(** The theorem at work on foo-1.0.0-1.egg. *)
Lemma split_eggname_round_trip_witness :
  DistNaming.is_valid_eggname "foo-1.0.0-1.egg" = true ∧
  DistNaming.split_eggname "foo-1.0.0-1.egg" = Ok ("foo", "1.0.0", 1%Z) ∧
  bind (DistNaming.split_eggname "foo-1.0.0-1.egg")
    (fun nvb => Ok (DistNaming.format_eggname nvb)) = Ok "foo-1.0.0-1.egg".
Proof.
  destruct split_eggname_round_trip as [_ Hcanon].
  apply (Hcanon "foo" "1.0.0" 1%Z).
  - done.
  - done.
  - apply hyphen_free_forall. reflexivity.
  - apply hyphen_free_forall. reflexivity.
  - lia.
Defined.

(** C2 as stated fails: a build written with a leading zero is accepted,
    and comes back from [int] and the format without it. *)
Lemma split_eggname_leading_zero :
  DistNaming.is_valid_eggname "foo-1.0.0-01.egg" = true ∧
  DistNaming.split_eggname "foo-1.0.0-01.egg" = Ok ("foo", "1.0.0", 1%Z) ∧
  DistNaming.format_eggname ("foo", "1.0.0", 1%Z) = "foo-1.0.0-1.egg" ∧
  DistNaming.format_eggname ("foo", "1.0.0", 1%Z) ≠ "foo-1.0.0-01.egg".
Proof. split_and!; [by vm_compute..|]. by vm_compute. Qed.

(** ** More on egg file names *)

(** A [cls+] none of whose ways to stop suits the continuation fails. *)
Lemma re_plus_none {R} cls acc (k : string → string → option R) s :
  (∀ q rest, q ≠ "" → s = q +:+ rest → string_forall cls q = true →
     k (acc +:+ q) rest = None) →
  DistNaming.re_plus cls acc k s = None.
Proof.
  revert acc. induction s as [|c s IH]; intros acc Hfail; [done|].
  simpl. destruct (cls c) eqn:Hc; [|done].
  rewrite IH.
  - apply (Hfail (String c "") s); [done|done|]. simpl. by rewrite Hc.
  - intros q rest Hq -> Hcls.
    rewrite append_assoc, append_cons, append_nil_l.
    apply Hfail; [done|done|]. simpl. by rewrite Hc.
Qed.

(** A [cls+] gives back characters when the longer runs do not suit the
    continuation and a shorter one does. *)
Lemma re_plus_backtrack {R} cls acc (k : string → string → option R) p rest r :
  p ≠ "" → string_forall cls p = true →
  (∀ q rest', q ≠ "" → rest = q +:+ rest' → string_forall cls q = true →
     k ((acc +:+ p) +:+ q) rest' = None) →
  k (acc +:+ p) rest = Some r →
  DistNaming.re_plus cls acc k (p +:+ rest) = Some r.
Proof.
  revert acc. induction p as [|c p IH]; intros acc Hne Hp Hfail Hk; [done|].
  rewrite append_cons. simpl in *.
  apply andb_true_iff in Hp as [Hc Hp]. rewrite Hc.
  destruct p as [|c' p].
  - rewrite append_nil_l. rewrite re_plus_none; [done|].
    intros q rest' Hq -> Hcls. by apply Hfail.
  - rewrite (IH (acc +:+ String c "")); [done|done|done| |].
    + intros q rest' Hq -> Hcls.
      rewrite (append_assoc acc), append_cons, append_nil_l. by apply Hfail.
    + by rewrite append_assoc, append_cons, append_nil_l.
Qed.

(** X1: [egg_pat] accepts exactly the strings of the shape name, hyphen,
    version, hyphen, digits, any one character but a newline, egg, with at
    most one final newline; its groups are the name, the version and the
    digits.  The character before egg need not be a dot, and when it is a
    digit the matcher gives it back from the build. *)
Theorem egg_pat_accepts e n v d :
  DistNaming.egg_pat e = Some (n, v, d) ↔ egg_shape e n v d.
Proof.
  split.
  - intros H. destruct (egg_pat_inv _ _ _ _ H) as (c & tail & Hshape).
    by exists c, tail.
  - intros (c & tail & -> & Hn & Hcn & Hv & Hcv & Hd & Hcd & Hc & Htail).
    unfold DistNaming.egg_pat.
    apply re_plus_greedy; [done|done|reflexivity|].
    cbn beta. rewrite append_nil_l.
    change ("-" +:+ ?x) with (String "-" x).
    cbn [DistNaming.re_char Ascii.eqb Bool.eqb].
    apply re_plus_greedy; [done|done|reflexivity|].
    cbn beta. rewrite append_nil_l.
    change ("-" +:+ ?x) with (String "-" x).
    cbn [DistNaming.re_char Ascii.eqb Bool.eqb].
    apply re_plus_backtrack; [done|done| |].
    + intros q rest' Hq Heq Hq_digits.
      destruct q as [|c1 q]; [done|]. rewrite append_cons in Heq.
      injection Heq as <- Heq. change ("egg" +:+ tail) with (String "e" ("gg" +:+ tail)) in Heq.
      destruct q as [|c2 q].
      * rewrite append_nil_l in Heq. subst rest'. reflexivity.
      * rewrite append_cons in Heq. injection Heq as <- _.
        simpl in Hq_digits. by rewrite andb_false_r in Hq_digits.
    + cbn beta. rewrite append_nil_l.
      unfold DistNaming.re_any.
      destruct (Ascii.eqb_spec c DistNaming.newline) as [|_]; [done|].
      change ("egg" +:+ tail) with (String "e" (String "g" (String "g" tail))).
      cbn [DistNaming.re_char Ascii.eqb Bool.eqb].
      by destruct Htail as [-> | ->].
Qed.

(** ** More on plans *)

Lemma filter_truthy_rm self eggs :
  List.filter (fun e => truthy (Enpkg.find self e)) (Enpkg.rm self eggs) = [].
Proof.
  unfold Enpkg.rm. induction eggs as [|e eggs IH]; [done|]. simpl.
  destruct (Enpkg.find self e) as [d|] eqn:Hfind; simpl; [done|].
  by rewrite Hfind.
Qed.

(** X2: without force flags a plan never removes anything, in plain mode
    as in hook mode: the eggs it keeps are those [find] does not know, and
    only eggs [find] knows are removed.  In hook mode no plan removes
    anything, whatever the flags. *)
Theorem install_actions_no_remove self arg mode force forceall plan :
  Enpkg.install_actions self arg mode force forceall = Ok plan →
  (force = false ∧ forceall = false) ∨ Enpkg.hook self = true →
  eggs_of "remove" plan = [] ∧
  plan = map (pair "fetch") (eggs_of "fetch" plan)
         ++ map (pair "install") (eggs_of "fetch" plan).
Proof.
  intros Hplan Hcase.
  destruct (install_actions_shape _ _ _ _ _ _ Hplan)
    as (req & eggs & kept & _ & _ & _ & _ & Hnone & _ & ->).
  assert ((if Enpkg.hook self then []
           else map (pair "remove")
                  (rev (List.filter (fun e => truthy (Enpkg.find self e)) kept)))
          = map (pair "remove") []) as ->.
  { destruct (Enpkg.hook self) eqn:Hhook; [done|].
    destruct Hcase as [[-> ->]|?]; [|done].
    rewrite (Hnone eq_refl eq_refl). by rewrite filter_truthy_rm. }
  destruct (three_blocks_eggs kept [] kept) as (E1 & E2 & _).
  simpl in *. by rewrite E1, E2.
Qed.

(** The theorem at work: a is installed, b is not; no flags. *)
Lemma install_actions_no_remove_witness :
  let plan := [("fetch", "b-1-1.egg"); ("install", "b-1-1.egg")] in
  eggs_of "remove" plan = [] ∧
  plan = map (pair "fetch") (eggs_of "fetch" plan)
         ++ map (pair "install") (eggs_of "fetch" plan).
Proof.
  apply (install_actions_no_remove
           (Scenario.enpkg true ["a-1-1.egg"] ["a-1-1.egg"; "b-1-1.egg"])
           (Enpkg.AStr "b") "recur" false false).
  - vm_compute. reflexivity.
  - left. split; reflexivity.
Defined.

(** X3: with [forceall] in plain mode the plan removes, before installing
    anything, every egg of the resolver sequence that [find] knows, last
    egg first, and fetches and installs the whole sequence. *)
Theorem install_actions_forceall_plain self arg mode force req eggs plan :
  Enpkg.req_from_anything self arg = Ok req →
  Enpkg.install_sequence self req mode = Ok (Some eggs) →
  Enpkg.hook self = false →
  Enpkg.install_actions self arg mode force true = Ok plan →
  plan = map (pair "fetch") eggs
         ++ map (pair "remove")
              (rev (List.filter (fun e => truthy (Enpkg.find self e)) eggs))
         ++ map (pair "install") eggs.
Proof.
  intros Hreq Hseq Hhook Hplan.
  destruct (install_actions_shape _ _ _ _ _ _ Hplan)
    as (req' & eggs' & kept & Hreq' & Hseq' & _ & Hall & _ & _ & ->).
  rewrite Hreq in Hreq'. injection Hreq' as <-.
  rewrite Hseq in Hseq'. injection Hseq' as <-.
  rewrite (Hall eq_refl), Hhook. done.
Qed.

(** The theorem at work: both eggs installed, everything forced. *)
Lemma install_actions_forceall_plain_witness :
  Enpkg.install_actions
    (Scenario.enpkg true ["a-1-1.egg"; "b-1-1.egg"] ["a-1-1.egg"; "b-1-1.egg"])
    (Enpkg.AStr "b") "recur" false true
  = Ok [("fetch", "a-1-1.egg"); ("fetch", "b-1-1.egg");
        ("remove", "b-1-1.egg"); ("remove", "a-1-1.egg");
        ("install", "a-1-1.egg"); ("install", "b-1-1.egg")].
Proof.
  set (self := Scenario.enpkg true ["a-1-1.egg"; "b-1-1.egg"]
                 ["a-1-1.egg"; "b-1-1.egg"]).
  destruct (Enpkg.install_actions self (Enpkg.AStr "b") "recur" false true)
    as [plan|e] eqn:Hplan; [|by vm_compute in Hplan].
  rewrite (install_actions_forceall_plain self (Enpkg.AStr "b") "recur" false
             (mkReq (Some "b") None None) ["a-1-1.egg"; "b-1-1.egg"] plan);
    [by vm_compute|by vm_compute|done|done|done].
Defined.

(** ** More on the proxy set-up *)

Lemma proxystr_nonempty (h rest : string) : h ≠ "" → (h +:+ rest =? "")%string = false.
Proof. destruct h as [|c h]; [done|]. intros _. reflexivity. Qed.

(** X4: with no proxy string and no [PROXY_HOST] in the environment
    [setup_proxy] answers [False] and leaves the installed opener alone,
    whatever the other variables are. *)
Theorem setup_proxy_no_host environ _parse_proxy splitport getpass
    proxystr installed :
  environ !! "PROXY_HOST" = None →
  ProxyUtil.missing proxystr = true →
  ProxyUtil.setup_proxy environ _parse_proxy splitport getpass proxystr installed
    = Ok (false, installed).
Proof.
  intros Hhost Hmissing.
  unfold ProxyUtil.setup_proxy, ProxyUtil.get_proxy_info.
  rewrite Hmissing, Hhost. simpl.
  unfold ProxyUtil.get at 1. do 2 rewrite lookup_insert_ne by done.
  rewrite lookup_insert_eq. simpl.
  destruct (environ !! "PROXY_USER") as [user|]; simpl.
  - destruct (String.eqb user ""); simpl.
    + unfold ProxyUtil.get. by rewrite lookup_insert_eq.
    + unfold ProxyUtil.get at 1. do 3 rewrite lookup_insert_ne by done.
      rewrite lookup_insert_eq.
      destruct (environ !! "PROXY_PASS") as [pass|]; simpl.
      * destruct (String.eqb pass ""); simpl; unfold ProxyUtil.get.
        -- rewrite lookup_insert_ne by done. by rewrite lookup_insert_eq.
        -- by rewrite lookup_insert_eq.
      * unfold ProxyUtil.get. rewrite lookup_insert_ne by done.
        by rewrite lookup_insert_eq.
  - unfold ProxyUtil.get. by rewrite lookup_insert_eq.
Qed.

(** The theorem at work: an empty environment. *)
Lemma setup_proxy_no_host_witness :
  ProxyUtil.setup_proxy ∅ ProxyScenario._parse_proxy ProxyScenario.splitport
    "secret" (Some "") None
  = Ok (false, None).
Proof.
  apply (setup_proxy_no_host ∅ ProxyScenario._parse_proxy
           ProxyScenario.splitport "secret" (Some "") None).
  - reflexivity.
  - reflexivity.
Defined.


Ltac look :=
  repeat first [rewrite lookup_insert_eq | rewrite lookup_insert_ne by done].

Lemma get_Some (d : ProxyUtil.pinfo) k v : d !! k = Some v → ProxyUtil.get d k = v.
Proof. unfold ProxyUtil.get. by intros ->. Qed.

Lemma given_of_option o :
  ProxyUtil.given (ProxyUtil.of_option o) = Ok (negb (ProxyUtil.missing o)).
Proof. by destruct o. Qed.

(** What [get_proxy_info] reads from the environment when no proxy string
    is given. *)
Lemma get_proxy_info_env environ _parse_proxy splitport getpass proxystr :
  ProxyUtil.missing proxystr = true →
  ∃ info,
    ProxyUtil.get_proxy_info environ _parse_proxy splitport getpass proxystr
      = Ok info ∧
    info !! "host" = Some (ProxyUtil.of_option (environ !! "PROXY_HOST")) ∧
    info !! "port" = Some (match environ !! "PROXY_PORT" with
                           | Some p => ProxyUtil.PStr p
                           | None => ProxyUtil.default_port
                           end) ∧
    info !! "user" = Some (ProxyUtil.of_option (environ !! "PROXY_USER")) ∧
    info !! "pass" =
      Some (if negb (ProxyUtil.missing (environ !! "PROXY_USER"))
               && ProxyUtil.missing (environ !! "PROXY_PASS")
            then ProxyUtil.PStr getpass
            else ProxyUtil.of_option (environ !! "PROXY_PASS")).
Proof.
  intros Hmissing. unfold ProxyUtil.get_proxy_info. rewrite Hmissing.
  cbn [bind]. rewrite (get_Some _ "user" _) by (by look).
  rewrite given_of_option. cbn [bind].
  destruct (ProxyUtil.missing (environ !! "PROXY_USER")); cbn [negb andb].
  - eexists. split; [done|]. split_and!; by look.
  - rewrite (get_Some _ "pass" _) by (by look).
    rewrite given_of_option. cbn [bind]. rewrite negb_involutive.
    destruct (ProxyUtil.missing (environ !! "PROXY_PASS"));
      (eexists; split; [done|]; split_and!; by look).
Qed.

(** [get_proxystr] on a dict with a non-empty host. *)
Lemma get_proxystr_host (d : ProxyUtil.pinfo) h n :
  d !! "host" = Some (ProxyUtil.PStr h) → h ≠ "" →
  ProxyUtil.fmt_s d "port" = Ok n →
  (ProxyUtil.given (ProxyUtil.get d "user") = Ok false →
     ProxyUtil.get_proxystr d = Ok (h +:+ ":" +:+ n)) ∧
  (∀ u p, d !! "user" = Some (ProxyUtil.PStr u) → u ≠ "" →
     ProxyUtil.fmt_s d "pass" = Ok p →
     ProxyUtil.get_proxystr d
     = Ok (u +:+ ":" +:+ p +:+ "@" +:+ h +:+ ":" +:+ n)).
Proof.
  intros Hhost Hh Hport. apply String.eqb_neq in Hh.
  unfold ProxyUtil.get_proxystr. rewrite (get_Some _ _ _ Hhost).
  cbn [ProxyUtil.given]. rewrite Hh. cbn [negb bind]. split.
  - intros ->. cbn [bind]. unfold ProxyUtil.fmt_s at 1. rewrite Hhost.
    cbn [bind]. by rewrite Hport.
  - intros u p Huser Hu Hpass. apply String.eqb_neq in Hu.
    rewrite (get_Some _ _ _ Huser). cbn [ProxyUtil.given]. rewrite Hu.
    cbn [negb bind]. unfold ProxyUtil.fmt_s at 1. rewrite Huser. cbn [bind].
    rewrite Hpass. cbn [bind]. unfold ProxyUtil.fmt_s at 1. rewrite Hhost.
    cbn [bind]. by rewrite Hport.
Qed.


Lemma fmt_s_port environ (d : ProxyUtil.pinfo) :
  d !! "port" = Some (match environ !! "PROXY_PORT" with
                      | Some p => ProxyUtil.PStr p
                      | None => ProxyUtil.default_port
                      end) →
  ProxyUtil.fmt_s d "port" = Ok (port_text environ).
Proof.
  intros H. unfold ProxyUtil.fmt_s, port_text. rewrite H.
  by destruct (environ !! "PROXY_PORT").
Qed.

(** X5: with no proxy string and a non-empty [PROXY_HOST], [setup_proxy]
    answers [True] and installs an opener whose http and https proxies are
    host:port, or user:pass@host:port when [PROXY_USER] is set, the
    password being asked for when [PROXY_PASS] is missing or empty; the
    port is [PROXY_PORT] as it stands, 80 without one. *)
Theorem setup_proxy_env_host environ _parse_proxy splitport getpass
    proxystr installed h :
  environ !! "PROXY_HOST" = Some h → h ≠ "" →
  ProxyUtil.missing proxystr = true →
  let run := ProxyUtil.setup_proxy environ _parse_proxy splitport getpass
               proxystr installed in
  let port := port_text environ in
  (ProxyUtil.missing (environ !! "PROXY_USER") = true →
     run = Ok (true, Some (proxies (h +:+ ":" +:+ port)))) ∧
  (∀ u, environ !! "PROXY_USER" = Some u → u ≠ "" →
     let pw := if ProxyUtil.missing (environ !! "PROXY_PASS") then getpass
               else default "" (environ !! "PROXY_PASS") in
     run = Ok (true,
               Some (proxies (u +:+ ":" +:+ pw +:+ "@" +:+ h +:+ ":" +:+ port)))).
Proof.
  intros Hhost Hh Hmissing run port.
  destruct (get_proxy_info_env environ _parse_proxy splitport getpass
              proxystr Hmissing)
    as (info & Hinfo & Ih & Ip & Iu & Ipw).
  rewrite Hhost in Ih. cbn [ProxyUtil.of_option] in Ih.
  pose proof (fmt_s_port environ info Ip) as Hport.
  destruct (get_proxystr_host info h port Ih Hh Hport) as [Hplain Huser].
  assert (Hrun : ∀ s, ProxyUtil.get_proxystr info = Ok (s +:+ ":" +:+ port) →
            s ≠ "" → run = Ok (true, Some (proxies (s +:+ ":" +:+ port)))).
  { intros s Hs Hne. unfold run, ProxyUtil.setup_proxy. rewrite Hinfo.
    cbn [bind]. rewrite (get_Some _ _ _ Ih). cbn [ProxyUtil.is_not_None].
    unfold ProxyUtil.install_proxy_handlers. rewrite Hs. cbn [bind].
    by rewrite (proxystr_nonempty s _ Hne). }
  split.
  - intros Hu. apply Hrun; [|done]. apply Hplain.
    rewrite (get_Some _ _ _ Iu), given_of_option. by rewrite Hu.
  - intros u Hu Hune pw.
    assert (Hmu : ProxyUtil.missing (environ !! "PROXY_USER") = false).
    { rewrite Hu. cbn. by apply String.eqb_neq. }
    rewrite Hu in Iu. cbn [ProxyUtil.of_option] in Iu.
    rewrite Hmu in Ipw. cbn [negb andb] in Ipw.
    assert (Hpw : ProxyUtil.fmt_s info "pass" = Ok pw).
    { unfold ProxyUtil.fmt_s, pw. rewrite Ipw.
      destruct (environ !! "PROXY_PASS") as [p|]; cbn; [|done].
      by destruct (String.eqb p ""). }
    specialize (Huser u pw Iu Hune Hpw).
    unfold run, ProxyUtil.setup_proxy. rewrite Hinfo.
    cbn [bind]. rewrite (get_Some _ _ _ Ih). cbn [ProxyUtil.is_not_None].
    unfold ProxyUtil.install_proxy_handlers. rewrite Huser. cbn [bind].
    by rewrite (proxystr_nonempty u _ Hune).
Qed.

(** The theorem at work: a host and a user, no password, no port. *)
Lemma setup_proxy_env_host_witness :
  ProxyUtil.setup_proxy
    (<["PROXY_HOST" := "proxy.example.com"]> (<["PROXY_USER" := "ann"]> ∅))
    ProxyScenario._parse_proxy ProxyScenario.splitport "secret" None None
  = Ok (true, Some (proxies "ann:secret@proxy.example.com:80")).
Proof.
  refine (proj2 (setup_proxy_env_host
            (<["PROXY_HOST" := "proxy.example.com"]> (<["PROXY_USER" := "ann"]> ∅))
            ProxyScenario._parse_proxy ProxyScenario.splitport "secret"
            None None "proxy.example.com" _ _ _) "ann" _ _).
  - reflexivity.
  - discriminate.
  - reflexivity.
  - reflexivity.
  - discriminate.
Defined.


(** ** Repository names *)

Lemma startswith_inv (s p : string) :
  DistNaming.startswith s p = true → ∃ d, s = p +:+ d.
Proof.
  revert s. induction p as [|c p IH]; intros s H.
  - exists s. by rewrite append_nil_l.
  - destruct s as [|c' s]; [done|]. simpl in H.
    apply andb_true_iff in H as [->%Ascii.eqb_eq H].
    destruct (IH _ H) as [d ->]. exists d. by rewrite append_cons.
Qed.

Lemma startswith_app (p d : string) : DistNaming.startswith (p +:+ d) p = true.
Proof.
  induction p as [|c p IH]; [done|].
  rewrite append_cons. simpl. by rewrite Ascii.eqb_refl.
Qed.

Lemma prefix_app (p d : string) : String.prefix p (p +:+ d) = true.
Proof.
  induction p as [|c p IH]; [by destruct d|].
  rewrite append_cons. simpl. by destruct (ascii_dec c c).
Qed.

Lemma endswith_refl (p : string) : DistNaming.endswith p p = true.
Proof. destruct p; simpl; [done|]. by rewrite Ascii.eqb_refl, String.eqb_refl. Qed.

Lemma endswith_app (s p : string) : DistNaming.endswith (s +:+ p) p = true.
Proof.
  induction s as [|c s IH].
  - rewrite append_nil_l. apply endswith_refl.
  - rewrite append_cons. simpl. rewrite IH. apply orb_true_r.
Qed.

Ltac unstring :=
  repeat first [rewrite append_cons | rewrite append_nil_l].

Lemma cleanup_http d :
  DistNaming.cleanup_reponame ("http://" +:+ d)
  = if DistNaming.endswith ("http://" +:+ d) "/" then Ok ("http://" +:+ d)
    else Ok (("http://" +:+ d) +:+ "/").
Proof.
  unfold DistNaming.cleanup_reponame.
  rewrite (startswith_app "http://" d).
  replace (DistNaming.startswith ("http://" +:+ d) "local:") with false
    by (unstring; reflexivity).
  by destruct (DistNaming.endswith _ _).
Qed.

Lemma cleanup_file d :
  DistNaming.cleanup_reponame ("file://" +:+ d)
  = let repo := "file://" +:+ d in
    if DistNaming.startswith d "/" then
      if DistNaming.endswith repo "/" then Ok repo else Ok (repo +:+ "/")
    else
      if DistNaming.endswith repo (String DistNaming.backslash "") then Ok repo
      else Ok (repo +:+ String DistNaming.backslash "").
Proof.
  unfold DistNaming.cleanup_reponame.
  rewrite (startswith_app "file://" d).
  replace (DistNaming.startswith ("file://" +:+ d) "local:") with false
    by (unstring; reflexivity).
  replace (DistNaming.startswith ("file://" +:+ d) "http://") with false
    by (unstring; reflexivity).
  replace (DistNaming.drop_chars 7 ("file://" +:+ d)) with d
    by (unstring; reflexivity).
  cbv zeta.
  destruct (DistNaming.startswith d "/");
    by destruct (DistNaming.endswith _ _).
Qed.

(** Adding a character at the end does not change how a name starts. *)
Lemma startswith_slash_app d c :
  c ≠ "/"%char →
  DistNaming.startswith (d +:+ String c "") "/" = DistNaming.startswith d "/".
Proof.
  intros Hc. destruct d as [|c' d]; unstring; simpl; [|done].
  apply Ascii.eqb_neq in Hc. by rewrite Hc.
Qed.

Lemma startswith_slash_slash d :
  DistNaming.startswith d "/" = true →
  DistNaming.startswith (d +:+ "/") "/" = true.
Proof. destruct d as [|c' d]; [done|]. by unstring. Qed.

(** X7: a repository name [cleanup_reponame] returns is the given one with
    at most one separator added, it is 'local:' or ends in the separator
    of its kind, and cleaning it up again changes nothing. *)
Theorem cleanup_reponame_clean repo r :
  DistNaming.cleanup_reponame repo = Ok r →
  DistNaming.cleanup_reponame r = Ok r ∧
  (r = repo ∨ r = repo +:+ "/" ∨ r = repo +:+ String DistNaming.backslash "") ∧
  (r = "local:" ∨
   (DistNaming.startswith r "http://" = true ∧
    DistNaming.endswith r "/" = true) ∨
   (DistNaming.startswith r "file://" = true ∧
    (DistNaming.endswith r "/" = true ∨
     DistNaming.endswith r (String DistNaming.backslash "") = true))).
Proof.
  intros H.
  destruct (DistNaming.startswith repo "local:") eqn:Hlocal.
  { unfold DistNaming.cleanup_reponame in H. rewrite Hlocal in H.
    destruct (String.eqb repo "local:") eqn:Heq; [|done].
    apply String.eqb_eq in Heq as ->. injection H as <-. auto. }
  destruct (DistNaming.startswith repo "http://") eqn:Hhttp.
  { apply startswith_inv in Hhttp as [d ->]. rewrite cleanup_http in H.
    destruct (DistNaming.endswith ("http://" +:+ d) "/") eqn:Hend;
      injection H as <-.
    - rewrite cleanup_http, Hend. split_and!; [done|auto|].
      right; left. split; [apply startswith_app|done].
    - rewrite append_assoc, cleanup_http, <- append_assoc, endswith_app.
      split_and!; [done|auto|].
      right; left. split; [|done]. rewrite append_assoc. apply startswith_app. }
  destruct (DistNaming.startswith repo "file://") eqn:Hfile.
  2: { unfold DistNaming.cleanup_reponame in H.
       by rewrite Hlocal, Hhttp, Hfile in H. }
  apply startswith_inv in Hfile as [d ->]. rewrite cleanup_file in H.
  cbv zeta in H.
  destruct (DistNaming.startswith d "/") eqn:Hunix.
  - destruct (DistNaming.endswith ("file://" +:+ d) "/") eqn:Hend;
      injection H as <-.
    + rewrite cleanup_file. cbv zeta. rewrite Hunix, Hend.
      split_and!; [done|auto|].
      right; right. split; [apply startswith_app|auto].
    + rewrite append_assoc, cleanup_file. cbv zeta.
      rewrite (startswith_slash_slash _ Hunix), <- append_assoc, endswith_app.
      split_and!; [done|auto|].
      right; right. split; [|auto]. rewrite append_assoc. apply startswith_app.
  - destruct (DistNaming.endswith ("file://" +:+ d)
                (String DistNaming.backslash "")) eqn:Hend;
      injection H as <-.
    + rewrite cleanup_file. cbv zeta. rewrite Hunix, Hend.
      split_and!; [done|auto|].
      right; right. split; [apply startswith_app|auto].
    + rewrite append_assoc, cleanup_file. cbv zeta.
      rewrite startswith_slash_app by done.
      rewrite Hunix, <- append_assoc, endswith_app.
      split_and!; [done|auto|].
      right; right. split; [|auto]. rewrite append_assoc. apply startswith_app.
Qed.

(** The theorem at work: a Windows directory. *)
Lemma cleanup_reponame_clean_witness :
  DistNaming.cleanup_reponame
    ("file://E:" +:+ String DistNaming.backslash "eggs" +:+
     String DistNaming.backslash "")
  = Ok ("file://E:" +:+ String DistNaming.backslash "eggs" +:+
        String DistNaming.backslash "").
Proof.
  apply (cleanup_reponame_clean
           ("file://E:" +:+ String DistNaming.backslash "eggs")).
  reflexivity.
Defined.

(** X8: an https URL, which [create_joined_store] turns into a remote
    store, is an invalid repo string for [cleanup_reponame]; so is every
    name outside the three schemes, and a name that goes on after
    'local:' trips the assertion. *)
Theorem cleanup_reponame_refuses repo :
  (DistNaming.startswith repo "https://" = true →
     DistNaming.cleanup_reponame repo = Raise (DistNaming.invalid_repo repo) ∧
     ∀ isdir, Enpkg.create_joined_store isdir [repo]
              = Ok (Enpkg.JoinedStore [Enpkg.RemoteHTTPIndexedStore repo])) ∧
  (∀ e, DistNaming.cleanup_reponame repo = Raise e →
     (e = AssertionError ∧ DistNaming.startswith repo "local:" = true ∧
      repo ≠ "local:") ∨
     (e = DistNaming.invalid_repo repo ∧
      DistNaming.startswith repo "local:" = false ∧
      DistNaming.startswith repo "http://" = false ∧
      DistNaming.startswith repo "file://" = false)).
Proof.
  split.
  - intros [d ->]%startswith_inv. split.
    + unfold DistNaming.cleanup_reponame. by unstring.
    + intros isdir. unfold Enpkg.create_joined_store, Enpkg.create_stores,
        Enpkg.startswith.
      rewrite (prefix_app "https://" d), orb_true_r. by unstring.
  - intros e. unfold DistNaming.cleanup_reponame.
    destruct (DistNaming.startswith repo "local:").
    { destruct (String.eqb repo "local:") eqn:Heq; [done|].
      intros [= <-]. left. split_and!; [done..|].
      by apply String.eqb_neq. }
    destruct (DistNaming.startswith repo "http://").
    { by destruct (DistNaming.endswith repo "/"). }
    destruct (DistNaming.startswith repo "file://").
    { destruct (DistNaming.startswith _ "/");
        by destruct (DistNaming.endswith _ _). }
    intros [= <-]. by right.
Qed.

(** The theorem at work: one of the default repositories of enpkg.py. *)
Lemma cleanup_reponame_refuses_witness :
  DistNaming.cleanup_reponame "https://www.enthought.com/repo/epd/eggs/"
  = Raise (DistNaming.invalid_repo "https://www.enthought.com/repo/epd/eggs/").
Proof.
  apply (cleanup_reponame_refuses "https://www.enthought.com/repo/epd/eggs/").
  reflexivity.
Defined.
(** ** Distributions *)

Lemma re_plus_None_inv {R} cls acc (k : string → string → option R) s :
  DistNaming.re_plus cls acc k s = None →
  ∀ q rest, q ≠ "" → s = q +:+ rest → string_forall cls q = true →
    k (acc +:+ q) rest = None.
Proof.
  revert acc. induction s as [|c s IH]; intros acc H q rest Hq Hs Hcls.
  - destruct q; [done|]. by rewrite append_cons in Hs.
  - destruct q as [|c' q]; [done|]. rewrite append_cons in Hs.
    injection Hs as <- ->. simpl in H, Hcls.
    apply andb_true_iff in Hcls as [Hc Hcls]. rewrite Hc in H.
    destruct (DistNaming.re_plus cls (acc +:+ String c "") k (q +:+ rest))
      as [r|] eqn:Hmore; [done|].
    destruct q as [|c' q].
    + by rewrite append_nil_l in H.
    + pose proof (IH _ Hmore (String c' q) rest ltac:(done) eq_refl Hcls)
        as Hk.
      by rewrite append_assoc, append_cons, append_nil_l in Hk.
Qed.

(** A successful [cls+] stopped at the longest run that suits the
    continuation. *)
Lemma re_plus_first {R} cls acc (k : string → string → option R) s r :
  DistNaming.re_plus cls acc k s = Some r →
  ∃ p rest, s = p +:+ rest ∧ p ≠ "" ∧ string_forall cls p = true ∧
            k (acc +:+ p) rest = Some r ∧
            ∀ q rest', q ≠ "" → rest = q +:+ rest' →
              string_forall cls q = true →
              k ((acc +:+ p) +:+ q) rest' = None.
Proof.
  revert acc. induction s as [|c s IH]; intros acc H; simpl in H; [done|].
  destruct (cls c) eqn:Hc; [|done].
  destruct (DistNaming.re_plus cls (acc +:+ String c "") k s) as [r'|] eqn:Hmore.
  - injection H as ->.
    destruct (IH _ Hmore) as (p & rest & -> & _ & Hp & Hk & Hmax).
    exists (String c p), rest. simpl. rewrite Hc, Hp.
    rewrite append_assoc, append_cons, append_nil_l in Hk.
    split_and!; [done..|].
    intros q rest' Hq Hrest Hq_cls. specialize (Hmax q rest' Hq Hrest Hq_cls).
    by rewrite (append_assoc acc), append_cons, append_nil_l in Hmax.
  - exists (String c ""), s. simpl. rewrite Hc. split_and!; [done..|].
    intros q rest' Hq -> Hq_cls.
    by apply (re_plus_None_inv _ _ _ _ Hmore).
Qed.

Lemma re_lit_inv {R} lit (k : string → option R) s r :
  DistNaming.re_lit lit k s = Some r → ∃ s', s = lit +:+ s' ∧ k s' = Some r.
Proof.
  revert s. induction lit as [|c lit IH]; intros s H; simpl in H.
  - exists s. by rewrite append_nil_l.
  - apply re_char_inv in H as (s' & -> & H).
    destruct (IH _ H) as (s'' & -> & Hk). exists s''. by rewrite append_cons.
Qed.

Lemma re_lit_app {R} lit (k : string → option R) s :
  DistNaming.re_lit lit k (lit +:+ s) = k s.
Proof.
  induction lit as [|c lit IH]; [by rewrite append_nil_l|].
  rewrite append_cons. simpl. by rewrite Ascii.eqb_refl.
Qed.

Lemma re_set_inv {R} cls acc (k : string → string → option R) s r :
  DistNaming.re_set cls acc k s = Some r →
  ∃ c s', s = String c s' ∧ cls c = true ∧ k (acc +:+ String c "") s' = Some r.
Proof.
  destruct s as [|c s]; simpl; [done|].
  destruct (cls c) eqn:Hc; [eauto|done].
Qed.

(** The second group and the end of the pattern: the whole rest is the
    file name. *)
Lemma filename_group_spec repo s r filename :
  DistNaming.filename_group repo s = Some (r, filename) ↔
  r = repo ∧ s = filename ∧ filename_shape filename.
Proof.
  unfold DistNaming.filename_group, filename_shape. split.
  - intros H. apply re_plus_first in H
      as (p & rest & -> & Hp & Hcls & Hk & Hmax).
    rewrite append_nil_l in Hk, Hmax.
    apply re_eol_inv in Hk as [[= <- <-] [-> | ->]].
    + by rewrite append_nil_r.
    + specialize (Hmax (String DistNaming.newline "") "").
      by specialize (Hmax ltac:(done) eq_refl eq_refl).
  - intros (-> & -> & Hne & Hcls).
    rewrite <- (append_nil_r filename) at 1.
    apply re_plus_greedy; [done..|]. by rewrite append_nil_l.
Qed.

(** A file name does not start where a separator is looked for. *)
Lemma filename_no_sep {R} cls acc (k : string → string → option R)
    q rest' filename :
  (∀ c, cls c = true → DistNaming.is_sep c = true) →
  q +:+ rest' = filename → string_forall DistNaming.not_sep filename = true →
  DistNaming.re_set cls acc k rest' = None.
Proof.
  intros Hcls <- Hfn. destruct rest' as [|c rest']; [done|]. simpl.
  destruct (cls c) eqn:Hc; [|done]. apply Hcls in Hc.
  assert (DistNaming.not_sep c = true) as Hns.
  { clear -Hfn. induction q as [|c' q IH].
    - rewrite append_nil_l in Hfn. simpl in Hfn.
      by apply andb_true_iff in Hfn as [? _].
    - rewrite append_cons in Hfn. simpl in Hfn.
      apply andb_true_iff in Hfn as [_ ?]. by apply IH. }
  unfold DistNaming.not_sep in Hns. by rewrite Hc in Hns.
Qed.

(** After [m], a separator and a file name, a greedy run of [cls] that
    went further than [m] finds no separator to go on with. *)
Lemma beyond_separator {R} cls acc (k : string → string → option R)
    c filename q rest' :
  (∀ c, cls c = true → DistNaming.is_sep c = true) →
  string_forall DistNaming.not_sep filename = true →
  q ≠ "" → String c filename = q +:+ rest' →
  DistNaming.re_set cls acc k rest' = None.
Proof.
  intros Hcls Hfn Hq Heq. destruct q as [|c' q]; [done|].
  rewrite append_cons in Heq. injection Heq as _ Heq.
  by apply (filename_no_sep cls acc k q rest' filename).
Qed.

Lemma is_slash_sep c : DistNaming.is_slash c = true → DistNaming.is_sep c = true.
Proof.
  unfold DistNaming.is_slash, DistNaming.is_sep. intros ->. apply orb_true_r.
Qed.

(** X9: [split_dist] accepts exactly the strings made of a repository name
    and a file name, and gives the two back: a distribution is always
    repo + filename. *)
Theorem split_dist_spec dist repo filename :
  DistNaming.split_dist dist = Ok (repo, filename) ↔
  dist = repo +:+ filename ∧ repo_shape repo ∧ filename_shape filename.
Proof.
  unfold DistNaming.split_dist.
  assert (DistNaming.DIST_PAT dist = Some (repo, filename) ↔
          dist = repo +:+ filename ∧ repo_shape repo ∧ filename_shape filename)
    as <-.
  2: { destruct (DistNaming.DIST_PAT dist) as [[r f]|]; [|done].
       split; by intros [= -> ->]. }
  unfold DistNaming.DIST_PAT, DistNaming.re_alt. split.
  - intros H.
    destruct (DistNaming.re_lit "local:" _ dist) as [rf|] eqn:Hlocal.
    { injection H as ->. apply re_lit_inv in Hlocal as (s & -> & Hs).
      apply filename_group_spec in Hs as (-> & -> & Hfn).
      split_and!; [done| |done]. by left. }
    destruct (DistNaming.re_lit "file://" _ dist) as [rf|] eqn:Hfile.
    { injection H as ->. apply re_lit_inv in Hfile as (s & -> & Hs).
      unfold DistNaming.re_star in Hs.
      destruct (DistNaming.re_plus _ _ _ s) as [rf|] eqn:Hplus.
      - injection Hs as ->.
        apply re_plus_sound in Hplus as (m & rest & -> & _ & Hm & Hk).
        apply re_set_inv in Hk as (c & s' & -> & Hc & Hk).
        apply filename_group_spec in Hk as (-> & -> & Hfn).
        split_and!; [|right; left; by exists m, c|done].
        by rewrite !append_assoc, (append_cons c), append_nil_l.
      - apply re_set_inv in Hs as (c & s' & -> & Hc & Hk).
        apply filename_group_spec in Hk as (-> & -> & Hfn).
        split_and!; [|right; left; by exists "", c|done].
        by rewrite !append_assoc, (append_cons c), !append_nil_l. }
    apply re_lit_inv in H as (s & -> & Hs).
    apply re_plus_sound in Hs as (m & rest & -> & Hne & Hm & Hk).
    apply re_set_inv in Hk as (c & s' & -> & Hc & Hk).
    apply Ascii.eqb_eq in Hc as ->.
    apply filename_group_spec in Hk as (-> & -> & Hfn).
    split_and!; [|right; right; by exists m|done].
    by rewrite !append_assoc, (append_cons "/"), append_nil_l.
  - intros (-> & Hrepo & Hfn).
    assert (DistNaming.filename_group repo filename = Some (repo, filename))
      as Hgroup by (by apply filename_group_spec).
    destruct Hfn as [Hne Hfn].
    destruct Hrepo as [-> | [(m & c & -> & Hm & Hc) | (m & -> & Hmne & Hm)]].
    + by rewrite re_lit_app, Hgroup.
    + replace (DistNaming.re_lit "local:" _ _) with (@None (string * string))
        by (by unstring).
      rewrite !append_assoc, re_lit_app. unstring.
      unfold DistNaming.re_star.
      assert (DistNaming.re_set DistNaming.is_sep ("file://" +:+ m)
                DistNaming.filename_group (String c filename)
              = Some ("file://" +:+ m +:+ String c "", filename)) as Hhere.
      { unfold DistNaming.re_set. rewrite Hc.
        by rewrite (append_assoc "file://" m), Hgroup. }
      destruct m as [|c' m].
      * rewrite append_nil_l. rewrite re_plus_none.
        -- rewrite append_nil_r in Hhere. by rewrite Hhere.
        -- intros q rest' Hq Heq _.
           by apply (beyond_separator _ _ _ c filename q rest').
      * erewrite re_plus_backtrack; [done|done|done| |exact Hhere].
        intros q rest' Hq Heq _.
        by apply (beyond_separator _ _ _ c filename q rest').
    + replace (DistNaming.re_lit "local:" _ _) with (@None (string * string))
        by (by unstring).
      replace (DistNaming.re_lit "file://" _ _) with (@None (string * string))
        by (by unstring).
      rewrite !append_assoc, re_lit_app. unstring.
      apply re_plus_backtrack; [done|done| |].
      * intros q rest' Hq Heq _.
        by apply (beyond_separator _ _ _ "/"%char filename q rest');
          [apply is_slash_sep|..].
      * unfold DistNaming.re_set.
        change (DistNaming.is_slash "/") with true. cbn iota.
        by rewrite (append_assoc "http://" m), Hgroup.
Qed.

Lemma filename_dist_of rf :
  well_formed rf → DistNaming.filename_dist (dist_of rf) = Ok rf.2.
Proof.
  destruct rf as [repo filename]. intros [Hrepo Hfn].
  unfold DistNaming.filename_dist.
  by rewrite (proj2 (split_dist_spec (dist_of (repo, filename)) repo filename)).
Qed.

(** X10: over distributions that are a repository name and a file name,
    [iter_dists_excl] yields, in order, exactly those whose file name is
    not in [exclude_fn]; a string that is no distribution ends the
    generator with the assertion of [split_dist], after the distributions
    before it have been dealt with. *)
Theorem iter_dists_excl_spec pairs exclude_fn :
  Forall well_formed pairs →
  Main.iter_dists_excl (map dist_of pairs) exclude_fn
  = (map dist_of (not_excluded exclude_fn pairs), None) ∧
  ∀ bad rest, DistNaming.DIST_PAT bad = None →
    Main.iter_dists_excl (map dist_of pairs ++ bad :: rest) exclude_fn
    = (map dist_of (not_excluded exclude_fn pairs), Some AssertionError).
Proof.
  induction 1 as [|rf pairs Hrf Hpairs [IH1 IH2]].
  - split; [done|]. intros bad rest Hbad. simpl.
    unfold DistNaming.filename_dist, DistNaming.split_dist. by rewrite Hbad.
  - split.
    + simpl. rewrite (filename_dist_of _ Hrf), IH1.
      by destruct (bool_decide (rf.2 ∈ exclude_fn)).
    + intros bad rest Hbad. simpl.
      rewrite (filename_dist_of _ Hrf), (IH2 _ _ Hbad).
      by destruct (bool_decide (rf.2 ∈ exclude_fn)).
Qed.

(** The theorem at work: two repositories, one excluded file name. *)
Lemma iter_dists_excl_spec_witness :
  let pairs := [("local:", "foo-1.0-1.egg");
                ("http://www.example.com/repo/", "bar-2.0-1.egg");
                ("file:///usr/local/repo/", "foo-1.0-1.egg")] in
  Forall well_formed pairs ∧
  Main.iter_dists_excl (map dist_of pairs) ["foo-1.0-1.egg"]
  = (map dist_of (not_excluded ["foo-1.0-1.egg"] pairs), None).
Proof.
  intros pairs.
  assert (Forall well_formed pairs) as Hpairs.
  { apply Forall_cons_2; [|apply Forall_cons_2; [|apply Forall_cons_2;
      [|apply Forall_nil_2]]].
    - split; [left; reflexivity|]. split; [discriminate|reflexivity].
    - split; [|split; [discriminate|reflexivity]].
      right; right. exists "www.example.com/repo".
      split; [reflexivity|]. split; [discriminate|reflexivity].
    - split; [|split; [discriminate|reflexivity]].
      right; left. exists "/usr/local/repo", "/"%char.
      split; [reflexivity|]. split; reflexivity. }
  split; [exact Hpairs|].
  exact (proj1 (iter_dists_excl_spec pairs ["foo-1.0-1.egg"] Hpairs)).
Defined.
(** ** [parse_index] *)

(** Once a header has been read the loop cannot fail. *)
Lemma parse_lines_bound lines name d :
  ∃ d', Metadata.parse_lines (Some name) d lines = Ok d'.
Proof.
  revert name d. induction lines as [|line lines IH]; intros name d; simpl.
  - by eexists.
  - destruct (Metadata.sep_pat line); apply IH.
Qed.

(** X11: [parse_index] fails exactly when the data start with a line that
    is no header, and then with the [UnboundLocalError] of [fn]; empty
    data and data that start with a header are read to the end. *)
Theorem parse_index_unbound data :
  match Metadata.splitlines data with
  | [] => Metadata.parse_index data = Ok ∅
  | line :: _ =>
      match Metadata.sep_pat line with
      | None => Metadata.parse_index data = Raise (UnboundLocalError "fn")
      | Some _ => ∃ res, Metadata.parse_index data = Ok res
      end
  end.
Proof.
  unfold Metadata.parse_index.
  destruct (Metadata.splitlines data) as [|line rest]; simpl.
  - by rewrite fmap_empty.
  - destruct (Metadata.sep_pat line) as [name|]; [|done].
    destruct (parse_lines_bound rest name ∅) as [d' ->]. simpl. by eexists.
Qed.

Lemma parse_lines_lookup lines fn d d' name :
  Metadata.parse_lines fn d lines = Ok d' →
  d' !! name =
    match body_of name fn lines with
    | [] => d !! name
    | body => Some (default [] (d !! name) ++ (Metadata.rstrip <$> body))
    end.
Proof.
  revert fn d. induction lines as [|line lines IH]; intros fn d H; simpl in *.
  - by injection H as <-.
  - destruct (Metadata.sep_pat line) as [header|]; [by apply IH|].
    destruct fn as [f|]; [|done]. rewrite (IH _ _ H).
    destruct (decide (f = name)) as [->|Hne].
    + rewrite bool_decide_eq_true_2 by done. rewrite lookup_insert_eq. simpl.
      destruct (body_of name (Some name) lines) as [|l body].
      * done.
      * by rewrite <- app_assoc.
    + rewrite bool_decide_eq_false_2 by congruence.
      by rewrite lookup_insert_ne.
Qed.

(** X12: the index [parse_index] returns maps a name to the lines of text
    under the headers of that name, in order, each without trailing blanks,
    joined by line feeds: sections of the same name are merged, and a
    header that no line of text follows gives no entry. *)
Theorem parse_index_sections data res :
  Metadata.parse_index data = Ok res →
  ∀ name, res !! name = section_of (body_of name None (Metadata.splitlines data)).
Proof.
  unfold Metadata.parse_index. intros H name.
  apply bind_Ok in H as (d & Hd & [= <-]).
  rewrite lookup_fmap, (parse_lines_lookup _ _ _ _ name Hd), lookup_empty.
  by destruct (body_of name None (Metadata.splitlines data)).
Qed.

(** The theorem at work: two sections of one name and an empty one. *)
Lemma parse_index_sections_witness :
  let data := "==> a.egg <==" +:+ String "010" ("x = 1  " +:+ String "010"
              ("==> b.egg <==" +:+ String "010" ("==> a.egg <==" +:+
               String "010" "y = 2"))) in
  Metadata.parse_index data
    = Ok (<["a.egg" := "x = 1" +:+ String "010" "y = 2"]> ∅) ∧
  (<["a.egg" := "x = 1" +:+ String "010" "y = 2"]> ∅ : gmap string string) !! "b.egg"
    = section_of (body_of "b.egg" None (Metadata.splitlines data)).
Proof.
  intros data.
  assert (Metadata.parse_index data
          = Ok (<["a.egg" := "x = 1" +:+ String "010" "y = 2"]> ∅)) as Hres
    by (vm_compute; reflexivity).
  split; [exact Hres|].
  exact (parse_index_sections data _ Hres "b.egg").
Defined.
(** ** More on [parse_data] *)

Lemma copy_vars_Ok spec names res0 :
  (∀ k, k ∈ names → is_Some (spec !! k)) →
  ∃ res, Metadata.copy_vars spec names res0 = Ok res.
Proof.
  revert res0. induction names as [|name names IH]; intros res0 Hall; simpl.
  - by eexists.
  - destruct (Hall name) as [v Hv]; [by left|].
    unfold Metadata.getitem. rewrite Hv. simpl.
    apply IH. intros k Hk. apply Hall. by right.
Qed.

Lemma remove_cr_idemp data :
  Metadata.remove_cr (Metadata.remove_cr data) = Metadata.remove_cr data.
Proof.
  induction data as [|c data IH]; [done|]. simpl.
  destruct (Ascii.eqb c "013") eqn:Hc; [done|]. simpl. by rewrite Hc, IH.
Qed.

(** X13: [parse_data] returns whenever the section binds
    [metadata_version] to a string not below '1.1' and binds every name of
    [var_names] — with [md5] a string of 32 characters and [size] an int
    when [index] is set; the result holds exactly those names with the
    values of the section, and carriage returns in the data change
    nothing. *)
Theorem parse_data_accepts py_exec data index spec :
  py_exec (Metadata.remove_cr data) = Ok spec →
  (∃ s, spec !! "metadata_version" = Some (VStr s) ∧ String.leb "1.1" s = true) →
  (∀ k, k ∈ Metadata.var_names index → is_Some (spec !! k)) →
  (index = true →
     (∃ s, spec !! "md5" = Some (VStr s) ∧ String.length s = 32) ∧
     (∃ z, spec !! "size" = Some (VInt z))) →
  ∃ res,
    Metadata.parse_data py_exec data index = Ok res ∧
    Metadata.parse_data py_exec (Metadata.remove_cr data) index = Ok res ∧
    dom res = list_to_set (Metadata.var_names index) ∧
    ∀ k, k ∈ Metadata.var_names index → res !! k = spec !! k.
Proof.
  intros Hexec (s & Hversion & Hge) Hall Hindex.
  destruct (copy_vars_Ok spec (Metadata.var_names index) ∅ Hall) as [res Hres].
  assert (Metadata.parse_data py_exec data index = Ok res) as Hparse.
  { unfold Metadata.parse_data. rewrite Hexec. cbn [bind].
    unfold Metadata.getitem at 1. rewrite Hversion. cbn [bind Metadata.ge_str].
    rewrite Hge. cbn [negb].
    destruct index; [|done].
    destruct Hindex as [(m & Hmd5 & Hlen) (z & Hsize)]; [done|].
    unfold Metadata.getitem at 1. rewrite Hmd5.
    cbn [bind Metadata.is_str_of_32]. rewrite Hlen. cbn [Nat.eqb negb].
    unfold Metadata.getitem at 1. rewrite Hsize. done. }
  exists res. split; [done|]. split.
  { unfold Metadata.parse_data in *. by rewrite remove_cr_idemp. }
  destruct (copy_vars_lookup _ _ _ _ Hres) as [_ Hlookup]. split.
  - apply set_eq. intros k. rewrite elem_of_dom, Hlookup, elem_of_list_to_set.
    destruct (decide (k ∈ Metadata.var_names index)) as [Hk|Hk].
    + rewrite bool_decide_eq_true_2 by done. split; [done|]. auto.
    + rewrite bool_decide_eq_false_2 by done. rewrite lookup_empty.
      split; [by intros [? ?]|done].
  - intros k Hk. by rewrite Hlookup, bool_decide_eq_true_2.
Qed.

(** The theorem at work: the section of the scenario, read as a spec
    file. *)
Lemma parse_data_accepts_witness :
  ∃ res,
    Metadata.parse_data MetadataScenario.py_exec "" false = Ok res ∧
    Metadata.parse_data MetadataScenario.py_exec (Metadata.remove_cr "") false
      = Ok res ∧
    dom res = list_to_set (Metadata.var_names false) ∧
    ∀ k, k ∈ Metadata.var_names false →
         res !! k = MetadataScenario.namespace !! k.
Proof.
  apply (parse_data_accepts MetadataScenario.py_exec "" false
           MetadataScenario.namespace).
  - reflexivity.
  - exists "1.1". split; vm_compute; reflexivity.
  - intros k Hk.
    repeat (apply elem_of_cons in Hk as [->|Hk];
            [vm_compute; eexists; reflexivity|]).
    by apply elem_of_nil in Hk.
  - discriminate.
Defined.
(** ** [install], [remove] and [remove_req] *)

Lemma rm_all_installed self eggs :
  (∀ e, e ∈ eggs → Enpkg.is_installed self e = true) → Enpkg.rm self eggs = [].
Proof.
  unfold Enpkg.rm, Enpkg.is_installed. induction eggs as [|e eggs IH]; [done|].
  intros Hall. simpl. pose proof (Hall e ltac:(left)) as He.
  apply negb_true_iff in He. rewrite He. apply IH.
  intros e' He'. apply Hall. by right.
Qed.

(** X14: when every egg of the resolver sequence is installed already,
    [install] without force flags does nothing at all: no fetch, no
    removal, no progress display, no exception. *)
Theorem install_nothing_to_do {W : Type}
    (fetch ec_remove : string → W → W * option exn)
    (get_metadata : string → W → result info)
    (ec_install : string → info → W → W * option exn)
    (begin_super : list Enpkg.action → W → W) (progress : nat → W → W)
    (progress_exit end_super : W → W)
    self arg mode req eggs (w : W) :
  Enpkg.req_from_anything self arg = Ok req →
  Enpkg._connect self = Ok tt →
  Enpkg.install_sequence self req mode = Ok (Some eggs) →
  (∀ e, e ∈ eggs → Enpkg.is_installed self e = true) →
  Enpkg.install_actions self arg mode false false = Ok [] ∧
  Enpkg.install fetch ec_remove get_metadata ec_install begin_super progress
    progress_exit end_super self arg mode false false w = (w, None).
Proof.
  intros Hreq Hconn Hseq Hall.
  assert (Enpkg.install_actions self arg mode false false = Ok []) as Hplan.
  { unfold Enpkg.install_actions. rewrite Hreq. cbn [bind].
    rewrite Hconn. cbn [bind]. rewrite Hseq. cbn [bind negb].
    rewrite (rm_all_installed _ _ Hall). cbn [bind map rev List.filter].
    by destruct (negb (Enpkg.hook self)). }
  split; [done|]. unfold Enpkg.install. by rewrite Hplan.
Qed.

(** The theorem at work: both eggs of the sequence are installed. *)
Lemma install_nothing_to_do_witness :
  let self := Scenario.enpkg true ["a-1-1.egg"; "b-1-1.egg"]
                ["a-1-1.egg"; "b-1-1.egg"] in
  Enpkg.install_actions self (Enpkg.AStr "b") "recur" false false = Ok [] ∧
  Enpkg.install ExecScenario.fetch ExecScenario.ec_remove
    ExecScenario.get_metadata ExecScenario.ec_install
    (fun _ w => w ++ [("super", "begin")]) (fun _ w => w)
    (fun w => w) (fun w => w ++ [("super", "end")])
    self (Enpkg.AStr "b") "recur" false false [] = ([], None).
Proof.
  intros self.
  apply (install_nothing_to_do ExecScenario.fetch ExecScenario.ec_remove
           ExecScenario.get_metadata ExecScenario.ec_install
           (fun _ w => w ++ [("super", "begin")]) (fun _ w => w)
           (fun w => w) (fun w => w ++ [("super", "end")])
           self (Enpkg.AStr "b") "recur" (mkReq (Some "b") None None)
           ["a-1-1.egg"; "b-1-1.egg"] []).
  - vm_compute. reflexivity.
  - reflexivity.
  - reflexivity.
  - intros e He.
    repeat (apply elem_of_cons in He as [->|He]; [vm_compute; reflexivity|]).
    by apply elem_of_nil in He.
Defined.

Lemma remove_actions_plan self req plan :
  Enpkg.remove_actions self req = Ok plan → ∃ key, plan = [("remove", key)].
Proof.
  unfold Enpkg.remove_actions.
  destruct (negb (Enpkg.str_truthy (req_name req))); [done|].
  destruct (bool_decide (size _ = 0)); [done|].
  destruct (bool_decide (1 < size _)).
  { destruct (negb (Enpkg.hook self)); [done|].
    by destruct (Enpkg.versions_of _). }
  destruct (map_to_list _) as [|[key d] l]; [done|].
  intros [= <-]. by exists key.
Qed.

(** X15: [remove_req] never lets an [EnpkgError] through.  The error of
    [remove_actions] is printed and nothing is touched; the error the egg
    collection raises while removing is swallowed by [execute_actions]
    already, so that nothing is printed for it and the plan runs to its
    end. *)
Theorem remove_req_outcome {W : Type}
    (fetch ec_remove : string → W → W * option exn)
    (get_metadata : string → W → result info)
    (ec_install : string → info → W → W * option exn)
    (begin_super : list Enpkg.action → W → W) (progress : nat → W → W)
    (progress_exit end_super : W → W)
    self req (w : W) :
  let out :=
    Main.remove_req
      (Enpkg.remove fetch ec_remove get_metadata ec_install begin_super
         progress progress_exit end_super self) req w in
  (∀ m, out.2 ≠ Some (EnpkgError m)) ∧
  (∀ m, Enpkg.remove_actions self req = Raise (EnpkgError m) →
        out = (w, [m], None)) ∧
  (∀ plan, Enpkg.remove_actions self req = Ok plan →
     out.1.2 = [] ∧
     ∃ key, plan = [("remove", key)] ∧
       ∀ w' m, ec_remove key (begin_super plan w) = (w', Some (EnpkgError m)) →
         out = (end_super (progress_exit (progress 0 w')), [], None)).
Proof.
  intros out. subst out. unfold Main.remove_req, Enpkg.remove.
  destruct (Enpkg.remove_actions self req) as [plan|e] eqn:Hplan.
  - destruct (remove_actions_plan _ _ _ Hplan) as [key ->].
    cbn [Enpkg.execute_actions Enpkg.run_actions Enpkg.run_action].
    cbn [String.eqb Ascii.eqb Bool.eqb].
    destruct (ec_remove key (begin_super [("remove", key)] w))
      as [w' [e|]] eqn:Hrm.
    + destruct e; cbn; (split_and!; [done|done|]);
        intros plan [= <-]; (split; [done|]); exists key; (split; [done|]);
        (intros w'' m' H; rewrite Hrm in H; by simplify_eq).
    + cbn. split_and!; [done|done|].
      intros plan [= <-]. split; [done|]. exists key. split; [done|].
      (intros w'' m' H; rewrite Hrm in H; by simplify_eq).
  - destruct e; cbn; (split_and!; [done| |done]); by intros m' [= <-].
Qed.
(** ** Distributions of a cleaned-up repository *)

Lemma endswith_char_app p d c :
  d ≠ "" →
  DistNaming.endswith (p +:+ d) (String c "") = DistNaming.endswith d (String c "").
Proof.
  intros Hd. induction p as [|c' p IH]; [by rewrite append_nil_l|].
  rewrite append_cons. simpl. rewrite IH.
  destruct (p +:+ d) as [|c'' s] eqn:Hpd;
    [|simpl; by destruct (Ascii.eqb c' c)].
  destruct p; [by rewrite append_nil_l in Hpd|by rewrite append_cons in Hpd].
Qed.

Lemma endswith_char_inv d c :
  DistNaming.endswith d (String c "") = true → ∃ m, d = m +:+ String c "".
Proof.
  induction d as [|c' d IH]; [done|]. simpl.
  intros [H|H]%orb_true_iff.
  - apply andb_true_iff in H as [->%Ascii.eqb_eq Hd].
    destruct d; [|done]. exists "". by rewrite append_nil_l.
  - destruct (IH H) as [m ->]. exists (String c' m). by rewrite append_cons.
Qed.

Lemma string_forall_app cls s t :
  string_forall cls (s +:+ t) = string_forall cls s && string_forall cls t.
Proof.
  induction s as [|c s IH]; [by rewrite append_nil_l|].
  rewrite append_cons. simpl. by rewrite IH, andb_assoc.
Qed.

(** The names [cleanup_reponame] returns are names [DIST_PAT] reads, but
    for a newline in them and for a bare 'http://'. *)
Lemma cleaned_shape repo r :
  DistNaming.cleanup_reponame repo = Ok r →
  string_forall DistNaming.not_newline repo = true →
  r ≠ "http://" → r ≠ "http:///" →
  repo_shape r.
Proof.
  intros H Hnl Hbare Hbare'.
  destruct (DistNaming.startswith repo "local:") eqn:Hlocal.
  { unfold DistNaming.cleanup_reponame in H. rewrite Hlocal in H.
    destruct (String.eqb repo "local:") eqn:Heq; [|done].
    apply String.eqb_eq in Heq as ->. injection H as <-. by left. }
  destruct (DistNaming.startswith repo "http://") eqn:Hhttp.
  { apply startswith_inv in Hhttp as [d ->]. rewrite cleanup_http in H.
    rewrite string_forall_app in Hnl. apply andb_true_iff in Hnl as [_ Hnl].
    right; right.
    destruct d as [|c d]; [vm_compute in H; injection H as <-; by destruct Hbare|].
    rewrite endswith_char_app in H by done.
    destruct (DistNaming.endswith (String c d) "/") eqn:Hend; injection H as <-.
    - apply endswith_char_inv in Hend as [m Hm]. rewrite Hm in Hnl |- *.
      rewrite string_forall_app in Hnl. apply andb_true_iff in Hnl as [Hnl _].
      exists m. split_and!; [done| |done].
      intros ->. rewrite append_nil_l in Hm. injection Hm as -> ->.
      by destruct Hbare'.
    - exists (String c d). by rewrite append_assoc. }
  destruct (DistNaming.startswith repo "file://") eqn:Hfile.
  2: { unfold DistNaming.cleanup_reponame in H.
       by rewrite Hlocal, Hhttp, Hfile in H. }
  apply startswith_inv in Hfile as [d ->]. rewrite cleanup_file in H.
  cbv zeta in H.
  rewrite string_forall_app in Hnl. apply andb_true_iff in Hnl as [_ Hnl].
  right; left.
  destruct d as [|c0 d0].
  { vm_compute in H. injection H as <-. exists "", DistNaming.backslash.
    split_and!; reflexivity. }
  rewrite !endswith_char_app in H by done.
  assert (∀ c, DistNaming.is_sep c = true →
            (if DistNaming.endswith (String c0 d0) (String c "")
             then Ok ("file://" +:+ String c0 d0)
             else Ok (("file://" +:+ String c0 d0) +:+ String c "")) = Ok r →
            ∃ m c, r = "file://" +:+ m +:+ String c "" ∧
                   string_forall DistNaming.not_newline m = true ∧
                   DistNaming.is_sep c = true) as Hsep.
  { intros c Hc Hr.
    destruct (DistNaming.endswith (String c0 d0) (String c "")) eqn:Hend;
      injection Hr as <-.
    - apply endswith_char_inv in Hend as [m Hm]. rewrite Hm in Hnl |- *.
      rewrite string_forall_app in Hnl. apply andb_true_iff in Hnl as [Hnl _].
      by exists m, c.
    - exists (String c0 d0), c. by rewrite append_assoc. }
  destruct (DistNaming.startswith (String c0 d0) "/");
    by apply Hsep in H.
Qed.

(** X16: a distribution made of a cleaned-up repository name and a file
    name splits back into the two, as long as the name holds no newline
    and is more than a bare 'http://'; after 'http://' or 'http:///' no
    file name makes a distribution. *)
Theorem split_dist_cleanup repo r filename :
  DistNaming.cleanup_reponame repo = Ok r →
  filename_shape filename →
  (string_forall DistNaming.not_newline repo = true →
   r ≠ "http://" → r ≠ "http:///" →
   DistNaming.split_dist (r +:+ filename) = Ok (r, filename)) ∧
  (r = "http://" ∨ r = "http:///" →
   DistNaming.split_dist (r +:+ filename) = Raise AssertionError).
Proof.
  intros Hclean Hfn. split.
  - intros Hnl Hbare Hbare'. apply split_dist_spec.
    split_and!; [done| |done]. by apply (cleaned_shape repo).
  - destruct Hfn as [Hne Hfn].
    assert (∀ acc s, (s = filename ∨ s = String "/" filename) →
              DistNaming.re_plus DistNaming.not_newline acc
                (fun g => DistNaming.re_set DistNaming.is_slash g
                            DistNaming.filename_group) s = None) as Hnone.
    { intros acc s Hs. apply re_plus_none. intros q rest Hq Heq _.
      destruct Hs as [-> | ->].
      - by apply (filename_no_sep _ _ _ q rest filename);
          [apply is_slash_sep|..].
      - by apply (beyond_separator _ _ _ "/"%char filename q rest);
          [apply is_slash_sep|..]. }
    unfold DistNaming.split_dist, DistNaming.DIST_PAT, DistNaming.re_alt.
    intros [-> | ->].
    + replace (DistNaming.re_lit "local:" _ _) with (@None (string * string))
        by (by unstring).
      replace (DistNaming.re_lit "file://" _ _) with (@None (string * string))
        by (by unstring).
      rewrite re_lit_app, Hnone; auto.
    + replace (DistNaming.re_lit "local:" _ _) with (@None (string * string))
        by (by unstring).
      replace (DistNaming.re_lit "file://" _ _) with (@None (string * string))
        by (by unstring).
      change ("http:///" +:+ filename)
        with ("http://" +:+ String "/" filename).
      rewrite re_lit_app, Hnone; auto.
Qed.

(** The theorem at work: a host without a final slash. *)
Lemma split_dist_cleanup_witness :
  DistNaming.split_dist ("http://www.example.com/repo/" +:+ "foo-1.0-1.egg")
  = Ok ("http://www.example.com/repo/", "foo-1.0-1.egg").
Proof.
  apply (split_dist_cleanup "http://www.example.com/repo"
           "http://www.example.com/repo/" "foo-1.0-1.egg").
  - reflexivity.
  - split; [discriminate|reflexivity].
  - reflexivity.
  - discriminate.
  - discriminate.
Defined.
(** ** What [write_index] writes, [parse_index] reads *)

Lemma string_forall_impl (cls cls' : ascii → bool) s :
  (∀ c, cls c = true → cls' c = true) →
  string_forall cls s = true → string_forall cls' s = true.
Proof.
  intros Himpl. induction s as [|c s IH]; [done|]. simpl.
  intros [Hc Hs]%andb_true_iff. by rewrite (Himpl _ Hc), IH.
Qed.

Lemma splitlines_from_line cur line rest :
  string_forall not_eol line = true →
  Metadata.splitlines_from cur (line +:+ String "010" rest)
  = (cur +:+ line) :: Metadata.splitlines_from "" rest.
Proof.
  revert cur. induction line as [|c line IH]; intros cur Hline.
  - rewrite append_nil_l, append_nil_r. reflexivity.
  - rewrite append_cons. simpl in Hline.
    apply andb_true_iff in Hline as [Hc Hline].
    unfold not_eol in Hc. apply negb_true_iff, orb_false_iff in Hc as [Hlf Hcr].
    cbn [Metadata.splitlines_from]. rewrite Hlf, Hcr, (IH _ Hline).
    by rewrite append_assoc, append_cons, append_nil_l.
Qed.

Lemma splitlines_join ls rest :
  ls ≠ [] → Forall (fun l => string_forall not_eol l = true) ls →
  Metadata.splitlines (Metadata.join_lines ls +:+ String "010" rest)
  = ls ++ Metadata.splitlines rest.
Proof.
  unfold Metadata.splitlines.
  induction ls as [|l ls IH]; [done|]. intros _ Hls.
  apply Forall_cons in Hls as [Hl Hls]. destruct ls as [|l' ls].
  - cbn [Metadata.join_lines]. rewrite (splitlines_from_line "" l rest Hl).
    by rewrite append_nil_l.
  - change (Metadata.join_lines (l :: l' :: ls))
      with (l +:+ String "010" (Metadata.join_lines (l' :: ls))).
    rewrite append_assoc, append_cons, splitlines_from_line by done.
    rewrite append_nil_l, IH by done. done.
Qed.

Lemma not_space_eol c : Metadata.not_space c = true → not_eol c = true.
Proof.
  unfold Metadata.not_space, Metadata.is_space, not_eol.
  destruct (Ascii.eqb_spec c "010") as [->|]; [done|].
  by destruct (Ascii.eqb_spec c "013") as [->|].
Qed.

Lemma is_digit_eol c : DistNaming.is_digit c = true → not_eol c = true.
Proof.
  unfold not_eol.
  destruct (Ascii.eqb_spec c "010") as [->|]; [done|].
  by destruct (Ascii.eqb_spec c "013") as [->|].
Qed.

Lemma is_hex_eol c : is_hex c = true → not_eol c = true.
Proof.
  unfold not_eol.
  destruct (Ascii.eqb_spec c "010") as [->|]; [done|].
  by destruct (Ascii.eqb_spec c "013") as [->|].
Qed.

(** The header [index_section] writes for a name without blanks is read
    as a header of that name. *)
Lemma sep_pat_header name :
  name ≠ "" → string_forall Metadata.not_space name = true →
  Metadata.sep_pat ("==> " +:+ name +:+ " <==") = Some name.
Proof.
  intros Hne Hname. unfold Metadata.sep_pat.
  change ("==> " +:+ name +:+ " <==")
    with ("==>" +:+ (" " +:+ (name +:+ " <=="))).
  rewrite re_lit_app. unfold DistNaming.re_star at 1.
  rewrite (re_plus_greedy Metadata.is_space "" _ " " (name +:+ " <==")
             name); [done|done|done| |].
  - destruct name as [|c name]; [done|]. rewrite append_cons.
    cbn [stops]. cbn [string_forall] in Hname.
    apply andb_true_iff in Hname as [Hc _]. exact Hc.
  - cbn beta.
    rewrite (re_plus_greedy Metadata.not_space "" _ name " <==" name);
      [done|done|done|done|].
    cbn beta. by rewrite append_nil_l.
Qed.

Lemma body_of_text name cur body rest :
  Forall (fun l => Metadata.sep_pat l = None) body →
  body_of name cur (body ++ rest)
  = (if bool_decide (cur = Some name) then body else [])
    ++ body_of name cur rest.
Proof.
  induction 1 as [|line body Hline Hbody IH]; simpl.
  - by destruct (bool_decide _).
  - rewrite Hline, IH. by destruct (bool_decide _).
Qed.

Section IndexFacts.
Variable basename : string → string.
Variable join : string → string → string.
Variable getsize : string → Z.
Variable md5_hexdigest : string → string.
Variable rawspec_from_dist : string → result string.
Variable dir_path : string.
Variable valid_eggnames : bool.
Variable raw_lines : string → list string.

Local Abbreviation well_indexed :=
  (well_indexed basename join getsize md5_hexdigest rawspec_from_dist
     dir_path raw_lines).
Local Abbreviation lines_of :=
  (lines_of join getsize md5_hexdigest dir_path raw_lines).

Lemma lines_of_text fn :
  well_indexed fn → Forall text_line (lines_of fn).
Proof.
  intros (_ & _ & Hsize & Hmd5 & _ & Hraw & _).
  unfold lines_of, section_lines.
  repeat apply Forall_cons_2; [| | |done].
  - split; [|by unstring].
    rewrite string_forall_app. apply andb_true_iff. split; [done|].
    apply (string_forall_impl DistNaming.is_digit); [apply is_digit_eol|].
    by apply fmt_d_digits.
  - split; [|by unstring]. unfold Metadata.repr_hex.
    rewrite !string_forall_app, !andb_true_iff. split_and!; try done.
    by apply (string_forall_impl is_hex); [apply is_hex_eol|].
  - done.
Qed.

Lemma index_section_lines fn rest :
  well_indexed fn → fn ≠ "" →
  ∃ section header,
    Metadata.index_section basename getsize md5_hexdigest rawspec_from_dist
      (join dir_path fn) = Ok section ∧
    Metadata.sep_pat header = Some fn ∧
    Metadata.splitlines (section +:+ rest)
    = header :: lines_of fn ++ Metadata.splitlines rest.
Proof.
  intros Hfn Hne. pose proof (lines_of_text fn Hfn) as Htext.
  destruct Hfn as (Hbase & Hname & Hsize & Hmd5 & Hraw_ne & Hraw & Hspec).
  unfold Metadata.index_section. rewrite Hspec, Hbase. cbn [bind].
  eexists _, ("==> " +:+ fn +:+ " <=="). split; [done|].
  split; [by apply sep_pat_header|].
  unfold lines_of, section_lines in *.
  apply Forall_cons in Htext as [[Hl1 _] Htext].
  apply Forall_cons in Htext as [[Hl2 _] Htext].
  set (size := DistNaming.fmt_d (getsize (join dir_path fn))) in *.
  set (md5 := Metadata.repr_hex (md5_hexdigest (join dir_path fn))) in *.
  set (raw := Metadata.join_lines (raw_lines fn)) in *.
  assert ((("==> " +:+ fn +:+ " <==" +:+ Metadata.LF) +:+
           ("size = " +:+ size +:+ Metadata.LF) +:+
           ("md5 = " +:+ md5 +:+ Metadata.LF +:+ Metadata.LF) +:+
           raw +:+ Metadata.LF) +:+ rest
          = ("==> " +:+ fn +:+ " <==") +:+ String "010"
              (("size = " +:+ size) +:+ String "010"
                 (("md5 = " +:+ md5) +:+ String "010"
                    ("" +:+ String "010" (raw +:+ String "010" rest)))))
    as ->.
  { unfold Metadata.LF. rewrite !append_assoc. by unstring. }
  unfold Metadata.splitlines.
  rewrite (splitlines_from_line "" ("==> " +:+ fn +:+ " <==")).
  2: { rewrite !string_forall_app, !andb_true_iff. split_and!; [done| |done].
       by apply (string_forall_impl Metadata.not_space);
         [apply not_space_eol|]. }
  rewrite (splitlines_from_line "" _ _ Hl1).
  rewrite (splitlines_from_line "" _ _ Hl2).
  rewrite (splitlines_from_line "" "") by done.
  rewrite !append_nil_l. cbn [app]. do 4 f_equal.
  apply (splitlines_join (raw_lines fn) rest Hraw_ne).
  apply Forall_cons in Htext as [_ Htext].
  eapply Forall_impl; [exact Htext|]. by intros l [? _].
Qed.

Lemma endswith_nonempty fn : DistNaming.endswith fn ".egg" = true → fn ≠ "".
Proof. by intros H ->. Qed.

Lemma write_index_lines listing :
  NoDup listing →
  (∀ fn, fn ∈ listing → indexed valid_eggnames fn = true → well_indexed fn) →
  ∃ text,
    Metadata.write_index basename join getsize md5_hexdigest rawspec_from_dist
      dir_path valid_eggnames listing = Ok text ∧
    (Metadata.splitlines text = [] ∨
     ∃ header name rest, Metadata.splitlines text = header :: rest ∧
                         Metadata.sep_pat header = Some name) ∧
    ∀ name cur,
      body_of name cur (Metadata.splitlines text)
      = if bool_decide (name ∈ listing) && indexed valid_eggnames name
        then lines_of name else [].
Proof.
  induction listing as [|fn listing IH]; intros Hdup Hall.
  - exists "". split; [done|]. split; [by left|]. intros name cur.
    by rewrite bool_decide_eq_false_2 by apply not_elem_of_nil.
  - apply NoDup_cons in Hdup as [Hfn Hdup].
    destruct IH as (more & Hmore & Hhead & Hbody); [done| |].
    { intros fn' Hfn'. apply Hall. by right. }
    assert (∀ name, fn ≠ name →
              bool_decide (name ∈ fn :: listing) = bool_decide (name ∈ listing))
      as Hother.
    { intros name Hne. apply bool_decide_ext. rewrite elem_of_cons.
      split; [by intros [->|?]|by right]. }
    destruct (indexed valid_eggnames fn) eqn:Hkept.
    + pose proof Hkept as [Hegg Hvalid]%andb_true_iff.
      destruct (index_section_lines fn more) as (section & header & Hsec & Hhdr & Hlines).
      { apply Hall; [by left|done]. }
      { by apply endswith_nonempty. }
      exists (section +:+ more). split_and!.
      * cbn [Metadata.write_index]. rewrite Hegg. cbn [negb].
        replace (valid_eggnames && negb (DistNaming.is_valid_eggname fn))
          with false
          by (by destruct valid_eggnames, (DistNaming.is_valid_eggname fn)).
        by rewrite Hsec, Hmore.
      * right. by exists header, fn, (lines_of fn ++ Metadata.splitlines more).
      * intros name cur. rewrite Hlines. cbn [body_of]. rewrite Hhdr.
        rewrite body_of_text.
        2: { eapply Forall_impl; [apply lines_of_text, Hall; [by left|done]|].
             by intros l [_ ?]. }
        rewrite Hbody. destruct (decide (fn = name)) as [<-|Hne].
        -- rewrite (bool_decide_eq_true_2 (Some fn = Some fn)) by done.
           rewrite (bool_decide_eq_true_2 (fn ∈ fn :: listing)) by left.
           rewrite (bool_decide_eq_false_2 (fn ∈ listing)) by done.
           rewrite Hkept. cbn [andb]. by rewrite app_nil_r.
        -- rewrite (bool_decide_eq_false_2 (Some fn = Some name)) by congruence.
           by rewrite Hother.
    + exists more. split_and!; [|done|].
      * cbn [Metadata.write_index]. unfold indexed in Hkept.
        destruct (DistNaming.endswith fn ".egg"); [|done].
        cbn [andb negb] in Hkept |- *.
        by destruct valid_eggnames, (DistNaming.is_valid_eggname fn).
      * intros name cur. rewrite Hbody. destruct (decide (fn = name)) as [<-|Hne].
        -- rewrite Hkept, !andb_false_r. done.
        -- by rewrite Hother.
Qed.
End IndexFacts.

(** X17: the text [write_index] writes for a directory listing without
    repeated names is read back by [parse_index] as one entry for each
    file it made a section for, under the file name, holding the size
    line, the md5 line, a blank line and the lines of the spec; this
    relies on file names without blanks and on specs whose lines are no
    headers. *)
Theorem write_index_parse_index
    (basename : string → string) (join : string → string → string)
    (getsize : string → Z) (md5_hexdigest : string → string)
    (rawspec_from_dist : string → result string)
    dir_path valid_eggnames (raw_lines : string → list string) listing :
  NoDup listing →
  (∀ fn, fn ∈ listing → indexed valid_eggnames fn = true →
     well_indexed basename join getsize md5_hexdigest rawspec_from_dist
       dir_path raw_lines fn) →
  ∃ text res,
    Metadata.write_index basename join getsize md5_hexdigest rawspec_from_dist
      dir_path valid_eggnames listing = Ok text ∧
    Metadata.parse_index text = Ok res ∧
    ∀ fn, res !! fn =
      if bool_decide (fn ∈ listing) && indexed valid_eggnames fn
      then Some (Metadata.join_lines
                   (Metadata.rstrip <$>
                      lines_of join getsize md5_hexdigest dir_path raw_lines fn))
      else None.
Proof.
  intros Hdup Hall.
  destruct (write_index_lines basename join getsize md5_hexdigest
              rawspec_from_dist dir_path valid_eggnames raw_lines listing
              Hdup Hall) as (text & Htext & Hhead & Hbody).
  exists text.
  assert (∃ d, Metadata.parse_lines None ∅ (Metadata.splitlines text) = Ok d)
    as [d Hd].
  { destruct Hhead as [-> | (header & name & rest & -> & Hhdr)].
    - by eexists.
    - cbn [Metadata.parse_lines]. rewrite Hhdr. apply parse_lines_bound. }
  exists (Metadata.join_lines <$> d). split; [done|]. split.
  { unfold Metadata.parse_index. by rewrite Hd. }
  intros fn.
  rewrite lookup_fmap, (parse_lines_lookup _ _ _ _ fn Hd), lookup_empty, Hbody.
  by destruct (bool_decide (fn ∈ listing) && indexed valid_eggnames fn).
Qed.

(** The theorem at work: a directory with one egg and a README. *)
Lemma write_index_parse_index_witness :
  ∃ text res,
    Metadata.write_index IndexScenario.basename IndexScenario.join
      IndexScenario.getsize IndexScenario.md5_hexdigest
      IndexScenario.rawspec_from_dist IndexScenario.dir_path true
      IndexScenario.listing = Ok text ∧
    Metadata.parse_index text = Ok res ∧
    ∀ fn, res !! fn =
      if bool_decide (fn ∈ IndexScenario.listing) && indexed true fn
      then Some (Metadata.join_lines
                   (Metadata.rstrip <$>
                      lines_of IndexScenario.join IndexScenario.getsize
                        IndexScenario.md5_hexdigest IndexScenario.dir_path
                        IndexScenario.raw_lines fn))
      else None.
Proof.
  apply (write_index_parse_index IndexScenario.basename IndexScenario.join
           IndexScenario.getsize IndexScenario.md5_hexdigest
           IndexScenario.rawspec_from_dist IndexScenario.dir_path true
           IndexScenario.raw_lines IndexScenario.listing).
  - apply NoDup_cons_2; [|apply NoDup_cons_2; [|apply NoDup_nil_2]].
    + intros [H|H]%elem_of_cons; [discriminate H|by apply elem_of_nil in H].
    + apply not_elem_of_nil.
  - intros fn Hfn Hindexed.
    apply elem_of_cons in Hfn as [->|Hfn]; [discriminate Hindexed|].
    apply elem_of_cons in Hfn as [->|Hfn]; [|by apply elem_of_nil in Hfn].
    split; [reflexivity|]. split; [reflexivity|]. split; [discriminate|].
    split; [reflexivity|]. split; [discriminate|]. split; [|reflexivity].
    apply Forall_cons_2; [split; reflexivity|].
    apply Forall_cons_2; [split; reflexivity|].
    apply Forall_cons_2; [split; reflexivity|]. apply Forall_nil_2.
Defined.
